(** * CalorieSnap: the daily calorie ledger and the camera capture pipeline

    A shallow embedding of the application component [App] (the source's
    [App.tsx]) : its [localStorage]-backed calorie ledger, the daily goal,
    the dark-mode flag, the camera handlers and the frame down-scaling of
    [captureImage], followed by the properties the specification states
    about them.

    Conventions of the embedding.
    - JavaScript strings are Rocq [string]s (byte sequences, UTF-8).
    - The ledger's numbers (calories, goal) are integers and are modelled
      in [Z]; JavaScript's doubles agree with [Z] on integers of absolute
      value below 2^53, and the model speaks of that range and of
      integral calorie counts only.  Numbers that arise from a division
      ([progressPercent], the scaling factor of [captureImage]) are
      doubles: the rationals that [Double] rounds to 53 bits, extended
      with the two infinities and NaN where a division by zero can occur.
    - The browser (storage, clock, camera, file reader, the remote
      analysis service) is the environment: its answers are the
      parameters of the events of the transition system [step]. *)

From Stdlib Require Import ZArith QArith Qround Qabs Lia Lqa List String Ascii Bool.
From Stdlib Require Import Floats.
From Stdlib Require Import DecimalString DecimalFacts DecimalPos DecimalZ.
From stdpp Require Import gmap strings.

Set Warnings "-register-all".

Local Open Scope string_scope.
Local Open Scope Z_scope.

(** ** The JSON runtime: [JSON.parse] and [JSON.stringify] *)

Module JSON.

(** JavaScript values as [JSON.parse] produces them, plus [undefined]
    (the value of a missing property).  [JNum] is an integral number,
    [JDec m e] the non-integral decimal [m * 10^e] (a double in the
    browser; kept symbolic here). *)
Inductive jsval : Type :=
| JUndefined
| JNull
| JBool (b : bool)
| JNum (n : Z)
| JDec (m e : Z)
| JStr (s : string)
| JArr (items : list jsval)
| JObj (fields : list (string * jsval)).

(** The double quote and the backslash, by code. *)
Definition dquote : ascii := "034"%char.
Definition backslash : ascii := "092"%char.

Definition code (c : ascii) : N := N_of_ascii c.

Definition is_ws (c : ascii) : bool :=
  match code c with
  | 32 | 9 | 10 | 13 => true
  | _ => false
  end%N.

Fixpoint skip_ws (s : string) : string :=
  match s with
  | String c r => if is_ws c then skip_ws r else s
  | EmptyString => s
  end.

Fixpoint strip_prefix (p s : string) : option string :=
  match p with
  | EmptyString => Some s
  | String a p' =>
      match s with
      | String b s' => if Ascii.eqb a b then strip_prefix p' s' else None
      | EmptyString => None
      end
  end.

(** *** Numbers *)

Definition digit_of (c : ascii) : option (Decimal.uint -> Decimal.uint) :=
  match code c with
  | 48 => Some Decimal.D0 | 49 => Some Decimal.D1 | 50 => Some Decimal.D2
  | 51 => Some Decimal.D3 | 52 => Some Decimal.D4 | 53 => Some Decimal.D5
  | 54 => Some Decimal.D6 | 55 => Some Decimal.D7 | 56 => Some Decimal.D8
  | 57 => Some Decimal.D9
  | _ => None
  end%N.

(** The longest prefix of decimal digits, and what follows it. *)
Fixpoint scan_digits (s : string) : Decimal.uint * string :=
  match s with
  | String c r =>
      match digit_of c with
      | Some d => let '(u, rest) := scan_digits r in (d u, rest)
      | None => (Decimal.Nil, s)
      end
  | EmptyString => (Decimal.Nil, s)
  end.

(** The integer part of a JSON number: one digit at least, and no leading
    zero unless the part is the single digit 0. *)
Definition valid_int_part (u : Decimal.uint) : bool :=
  match u with
  | Decimal.Nil => false
  | Decimal.D0 Decimal.Nil => true
  | Decimal.D0 _ => false
  | _ => true
  end.

Definition scan_frac (s : string) : option (option Decimal.uint * string) :=
  match s with
  | String "." r =>
      match scan_digits r with
      | (Decimal.Nil, _) => None
      | (f, rest) => Some (Some f, rest)
      end
  | _ => Some (None, s)
  end.

Definition scan_exp (s : string) : option (option Z * string) :=
  match s with
  | String c r =>
      if (Ascii.eqb c "e" || Ascii.eqb c "E")%bool then
        let '(neg, r1) :=
          match r with
          | String "-" r' => (true, r')
          | String "+" r' => (false, r')
          | _ => (false, r)
          end in
        match scan_digits r1 with
        | (Decimal.Nil, _) => None
        | (x, rest) =>
            Some (Some (if neg then - Z.of_uint x else Z.of_uint x), rest)
        end
      else Some (None, s)
  | EmptyString => Some (None, s)
  end.

(** The value [m * 10^k]: an integer when it is one. *)
Definition decimal_value (m k : Z) : jsval :=
  if 0 <=? k then JNum (m * 10 ^ k)
  else
    let d := 10 ^ (- k) in
    if m mod d =? 0 then JNum (m / d) else JDec m k.

Definition parse_number (s : string) : option (jsval * string) :=
  let '(neg, s1) :=
    match s with
    | String "-" r => (true, r)
    | _ => (false, s)
    end in
  let '(i, s2) := scan_digits s1 in
  if valid_int_part i then
    '(frac, s3) ← scan_frac s2;
    '(ex, s4) ← scan_exp s3;
    let sgn (z : Z) := if neg then - z else z in
    match frac, ex with
    | None, None => Some (JNum (sgn (Z.of_uint i)), s4)
    | _, _ =>
        let f := default Decimal.Nil frac in
        let m := Z.of_uint (Decimal.app i f) in
        let k := default 0 ex - Z.of_nat (Decimal.nb_digits f) in
        Some (decimal_value (sgn m) k, s4)
    end
  else None.

(** *** Strings *)

Definition hex_val (c : ascii) : option N :=
  let n := code c in
  if ((48 <=? n) && (n <=? 57))%N then Some (n - 48)%N
  else if ((97 <=? n) && (n <=? 102))%N then Some (n - 87)%N
  else if ((65 <=? n) && (n <=? 70))%N then Some (n - 55)%N
  else None.

Definition hex4 (a b c d : ascii) : option N :=
  x ← hex_val a; y ← hex_val b; z ← hex_val c; w ← hex_val d;
  Some (((x * 16 + y) * 16 + z) * 16 + w)%N.

(** The character a two-character escape stands for. *)
Definition simple_escape (e : ascii) : option ascii :=
  match code e with
  | 34 => Some dquote
  | 92 => Some backslash
  | 47 => Some "/"%char
  | 98 => Some "008"%char
  | 102 => Some "012"%char
  | 110 => Some "010"%char
  | 114 => Some "013"%char
  | 116 => Some "009"%char
  | _ => None
  end%N.

(** What a string literal denotes, piece by piece: a byte written as it
    is (or through a two-character escape), or a UTF-16 code unit written
    as [\uXXXX]. *)
Inductive cunit : Type :=
| Lit (c : ascii)
| Esc (cp : N).

(** The characters of a string literal after its opening quote, up to the
    closing quote. *)
Fixpoint parse_chars (s : string) : option (list cunit * string) :=
  match s with
  | EmptyString => None
  | String c r =>
      if (code c =? 34)%N then Some ([], r)
      else if (code c =? 92)%N then
        match r with
        | String e r1 =>
            match simple_escape e with
            | Some x =>
                '(us, rest) ← parse_chars r1; Some (Lit x :: us, rest)
            | None =>
                if Ascii.eqb e "u" then
                  match r1 with
                  | String h1 (String h2 (String h3 (String h4 r2))) =>
                      cp ← hex4 h1 h2 h3 h4;
                      '(us, rest) ← parse_chars r2;
                      Some (Esc cp :: us, rest)
                  | _ => None
                  end
                else None
            end
        | EmptyString => None
        end
      else if (code c <? 32)%N then None
      else '(us, rest) ← parse_chars r; Some (Lit c :: us, rest)
  end.

Definition byte (n : N) : ascii := ascii_of_N n.

(** UTF-8 (generalised to lone surrogates) of a code point. *)
Definition utf8 (cp : N) : list ascii :=
  (if cp <? 128 then [byte cp]
   else if cp <? 2048 then [byte (192 + cp / 64); byte (128 + cp mod 64)]
   else if cp <? 65536 then
     [byte (224 + cp / 4096); byte (128 + (cp / 64) mod 64);
      byte (128 + cp mod 64)]
   else
     [byte (240 + cp / 262144); byte (128 + (cp / 4096) mod 64);
      byte (128 + (cp / 64) mod 64); byte (128 + cp mod 64)])%N.

Definition is_high (cp : N) : bool := ((55296 <=? cp) && (cp <=? 56319))%N.
Definition is_low (cp : N) : bool := ((56320 <=? cp) && (cp <=? 57343))%N.

(** The bytes of a parsed literal; a high surrogate followed by a low one
    is one code point. *)
Fixpoint bytes_of (us : list cunit) : list ascii :=
  match us with
  | [] => []
  | Lit c :: r => c :: bytes_of r
  | Esc hi :: r =>
      match r with
      | Esc lo :: r' =>
          if (is_high hi && is_low lo)%bool
          then utf8 (65536 + (hi - 55296) * 1024 + (lo - 56320))%N ++ bytes_of r'
          else utf8 hi ++ bytes_of r
      | _ => utf8 hi ++ bytes_of r
      end
  end.

Definition parse_string (s : string) : option (string * string) :=
  '(us, rest) ← parse_chars s;
  Some (string_of_list_ascii (bytes_of us), rest).

(** *** Values *)

(** [parse_value n s] reads one value at the head of [s] (after white
    space) and returns it with the rest of the input; [n] bounds the
    number of nested calls.  [parse_elements] reads the elements of an
    array after the first [[], [parse_members] the members of an object
    after the first [{]. *)
Fixpoint parse_value (n : nat) (s : string) {struct n}
  : option (jsval * string) :=
  match n with
  | O => None
  | S n =>
      match skip_ws s with
      | EmptyString => None
      | String c r =>
          if (code c =? 34)%N then
            '(str, rest) ← parse_string r; Some (JStr str, rest)
          else if Ascii.eqb c "{" then
            match skip_ws r with
            | String "}" r' => Some (JObj [], r')
            | _ => '(fs, rest) ← parse_members n r; Some (JObj fs, rest)
            end
          else if Ascii.eqb c "[" then
            match skip_ws r with
            | String "]" r' => Some (JArr [], r')
            | _ => '(vs, rest) ← parse_elements n r; Some (JArr vs, rest)
            end
          else if Ascii.eqb c "t" then
            rest ← strip_prefix "rue" r; Some (JBool true, rest)
          else if Ascii.eqb c "f" then
            rest ← strip_prefix "alse" r; Some (JBool false, rest)
          else if Ascii.eqb c "n" then
            rest ← strip_prefix "ull" r; Some (JNull, rest)
          else parse_number (String c r)
      end
  end
with parse_elements (n : nat) (s : string) {struct n}
  : option (list jsval * string) :=
  match n with
  | O => None
  | S n =>
      '(v, r) ← parse_value n s;
      match skip_ws r with
      | String "," r' =>
          '(vs, rest) ← parse_elements n r'; Some (v :: vs, rest)
      | String "]" r' => Some ([v], r')
      | _ => None
      end
  end
with parse_members (n : nat) (s : string) {struct n}
  : option (list (string * jsval) * string) :=
  match n with
  | O => None
  | S n =>
      match skip_ws s with
      | String c r =>
          if (code c =? 34)%N then
            '(k, r1) ← parse_string r;
            match skip_ws r1 with
            | String ":" r2 =>
                '(v, r3) ← parse_value n r2;
                match skip_ws r3 with
                | String "," r4 =>
                    '(fs, rest) ← parse_members n r4;
                    Some ((k, v) :: fs, rest)
                | String "}" r4 => Some ([(k, v)], r4)
                | _ => None
                end
            | _ => None
            end
          else None
      | EmptyString => None
      end
  end.

(** [JSON.parse]: [None] stands for the SyntaxError it throws. *)
Definition JSON_parse (s : string) : option jsval :=
  '(v, rest) ← parse_value (2 * String.length s + 2) s;
  match skip_ws rest with
  | EmptyString => Some v
  | _ => None
  end.

(** *** [JSON.stringify] *)

Definition hex_digit (n : N) : ascii :=
  (if n <? 10 then byte (48 + n) else byte (87 + n))%N.

(** QuoteJSONString, one character at a time. *)
Definition quote_char (c : ascii) : string :=
  let n := code c in
  let esc (e : ascii) := String backslash (String e EmptyString) in
  (if n =? 8 then esc "b"%char
   else if n =? 9 then esc "t"%char
   else if n =? 10 then esc "n"%char
   else if n =? 12 then esc "f"%char
   else if n =? 13 then esc "r"%char
   else if n =? 34 then esc dquote
   else if n =? 92 then esc backslash
   else if n <? 32 then
     String backslash
       (String "u" (String "0" (String "0"
          (String (hex_digit (n / 16)) (String (hex_digit (n mod 16))
             EmptyString)))))
   else String c EmptyString)%N.

Fixpoint quote_chars (s : string) : string :=
  match s with
  | EmptyString => EmptyString
  | String c r => quote_char c ++ quote_chars r
  end.

Definition quote (s : string) : string :=
  String dquote (quote_chars s ++ String dquote EmptyString).

(** Number::toString on an integer. *)
Definition string_of_Z (z : Z) : string := NilEmpty.string_of_int (Z.to_int z).

(** [JSON.stringify({ date: d, calories: c })], the one object the
    application serialises. *)
Definition JSON_stringify_log (d : string) (c : Z) : string :=
  "{" ++ quote "date" ++ ":" ++ quote d ++ ","
      ++ quote "calories" ++ ":" ++ string_of_Z c ++ "}".

(** *** Reading a parsed value *)

(** The last binding of [k]: a repeated key overrides the earlier one. *)
Fixpoint lookup_field (k : string) (fs : list (string * jsval))
  : option jsval :=
  match fs with
  | [] => None
  | (k', v) :: r =>
      match lookup_field k r with
      | Some w => Some w
      | None => if String.eqb k' k then Some v else None
      end
  end.

(** [v.k] as the destructuring [const { k } = v] reads it, for the two
    keys the application reads ([date] and [calories], which no built-in
    prototype defines): [None] stands for the TypeError thrown on [null]
    and [undefined]. *)
Definition get_prop (v : jsval) (k : string) : option jsval :=
  match v with
  | JUndefined | JNull => None
  | JObj fs => Some (default JUndefined (lookup_field k fs))
  | _ => Some JUndefined
  end.

(** [v === s] for a string [s]. *)
Definition strict_eq_string (v : jsval) (s : string) : bool :=
  match v with
  | JStr t => String.eqb t s
  | _ => false
  end.

End JSON.

Import JSON.


(** ** JavaScript's doubles, where the code divides

    A finite double is the rational it denotes.  An operation gives the
    exact result rounded to the nearest double, ties to even, with a
    significand of 53 bits; overflow and subnormal numbers, which the
    sizes and the calorie counts of the application never reach, are not
    modelled. *)

Module Double.

(** [p / q] rounded to the nearest integer, ties to even. *)
Definition round_half_even (p q : Z) : Z :=
  let f := p / q in
  let r := p mod q in
  if 2 * r <? q then f
  else if q <? 2 * r then f + 1
  else if Z.even f then f else f + 1.

(** The double nearest to the positive rational [n / d] (ties to even),
    for a value in the normal range: the significand has 53 bits. *)
Definition round_pos (n d : positive) : Q :=
  let s0 := 52 - (Z.log2 (Z.pos n) - Z.log2 (Z.pos d)) in
  if 0 <=? s0 then
    (* below 2^53: [n / d * 2^s] is in [2^52, 2^53) *)
    let s := if Z.pos d * 2 ^ 52 <=? Z.pos n * 2 ^ s0 then s0 else s0 + 1 in
    Qmake (round_half_even (Z.pos n * 2 ^ s) (Z.pos d)) (Z.to_pos (2 ^ s))
  else
    (* from 2^53 on: [n / d / 2^t] is in [2^52, 2^53) *)
    let t0 := - s0 in
    let t := if Z.pos d * 2 ^ (52 + t0) <=? Z.pos n then t0 else t0 - 1 in
    inject_Z (round_half_even (Z.pos n) (Z.pos d * 2 ^ t) * 2 ^ t).

Definition round (x : Q) : Q :=
  match Qnum x with
  | Z0 => 0%Q
  | Z.pos n => round_pos n (Qden x)
  | Z.neg n => (- round_pos n (Qden x))%Q
  end.

(** Division and multiplication of two doubles. *)
Definition div (x y : Q) : Q := round (x / y).
Definition mul (x y : Q) : Q := round (x * y).

(** The unit roundoff. *)
Definition u : Q := 1 # 9007199254740992.

End Double.

(** ** JavaScript numbers where a division occurs *)

Module Num.

(** [parseInt(s)] with no radix: leading white space, a sign, [0x] for
    base 16, then the longest prefix of digits.  [None] stands for NaN.

    The white space of a string-to-number conversion: the ASCII ones,
    and, in UTF-8, U+00A0, U+1680, U+2000 to U+200A, U+2028, U+2029,
    U+202F, U+205F, U+3000 and U+FEFF. *)
Definition is_str_ws (c : ascii) : bool :=
  match code c with
  | 9 | 10 | 11 | 12 | 13 | 32 => true
  | _ => false
  end%N.

Definition is_str_ws2 (c d : ascii) : bool :=
  ((code c =? 194) && (code d =? 160))%N.

Definition is_str_ws3 (c d e : ascii) : bool :=
  match code c, code d with
  | 225, 154 => code e =? 128
  | 226, 128 =>
      ((128 <=? code e) && (code e <=? 138)) || (code e =? 168)
      || (code e =? 169) || (code e =? 175)
  | 226, 129 => code e =? 159
  | 227, 128 => code e =? 128
  | 239, 187 => code e =? 191
  | _, _ => false
  end%N.

Fixpoint trim_start (s : string) : string :=
  match s with
  | String c r =>
      if is_str_ws c then trim_start r
      else
        match r with
        | String d r1 =>
            if is_str_ws2 c d then trim_start r1
            else
              match r1 with
              | String e r2 => if is_str_ws3 c d e then trim_start r2 else s
              | EmptyString => s
              end
        | EmptyString => s
        end
  | EmptyString => s
  end.

Fixpoint scan_hex (acc : option Z) (s : string) : option Z :=
  match s with
  | String c r =>
      match hex_val c with
      | Some d => scan_hex (Some (default 0 acc * 16 + Z.of_N d)) r
      | None => acc
      end
  | EmptyString => acc
  end.

Definition parseInt (s : string) : option Z :=
  let s0 := trim_start s in
  let '(neg, s1) :=
    match s0 with
    | String "-" r => (true, r)
    | String "+" r => (false, r)
    | _ => (false, s0)
    end in
  let magnitude :=
    match s1 with
    | String "0" (String x r) =>
        if (Ascii.eqb x "x" || Ascii.eqb x "X")%bool then scan_hex None r
        else Some (Z.of_uint (fst (scan_digits s1)))
    | _ =>
        match scan_digits s1 with
        | (Decimal.Nil, _) => None
        | (u, _) => Some (Z.of_uint u)
        end
    end in
  z ← magnitude; Some (if neg then - z else z).

(** A number that may come out of a division: a rational, an infinity or
    NaN. *)
Inductive jsnum : Type :=
| Fin (q : Q)
| PInf
| NInf
| NaN.

(** [a / b] on two integers, [b] being [+0] when it is zero. *)
Definition js_div (a b : Z) : jsnum :=
  if b =? 0 then
    if a =? 0 then NaN else if 0 <? a then PInf else NInf
  else Fin (Double.div (inject_Z a) (inject_Z b)).

(** [x * k] for a positive finite [k]. *)
Definition js_mul_pos (x : jsnum) (k : Q) : jsnum :=
  match x with
  | Fin q => Fin (Double.mul q k)
  | other => other
  end.

(** [Math.min(x, k)] for a finite [k]. *)
Definition Math_min (x : jsnum) (k : Q) : jsnum :=
  match x with
  | Fin q => Fin (if Qle_bool q k then q else k)
  | PInf => Fin k
  | NInf => NInf
  | NaN => NaN
  end.

(** [x > k], as JavaScript compares (false on NaN). *)
Definition js_gt (x : jsnum) (k : Q) : bool :=
  match x with
  | Fin q => negb (Qle_bool q k)
  | PInf => true
  | NInf | NaN => false
  end.

End Num.

Import Num.

(** ** The frame scaling of [captureImage] *)

Module Capture.

Definition maxDim : Q := 1024.

Definition Qgt_bool (x y : Q) : bool := negb (Qle_bool x y).

(** The [width] and [height] variables after the two [if]s, from the
    video's [videoWidth] and [videoHeight]. *)
Definition scale (videoWidth videoHeight : Z) : Q * Q :=
  let width := inject_Z videoWidth in
  let height := inject_Z videoHeight in
  if Qgt_bool width height then
    if Qgt_bool width maxDim
    then (maxDim, Double.mul height (Double.div maxDim width))
    else (width, height)
  else
    if Qgt_bool height maxDim
    then (Double.mul width (Double.div maxDim height), maxDim)
    else (width, height).

(** The conversion of an assignment to [canvas.width] (an [unsigned long]
    attribute): truncation, modulo 2^32.  (The attribute then keeps a
    value up to 2^31 - 1 as it is, and [scale] gives 1024 at most.) *)
Definition to_unsigned_long (q : Q) : Z :=
  (Z.quot (Qnum q) (Z.pos (Qden q))) mod 2 ^ 32.

(** The size of the canvas the frame is drawn to. *)
Definition canvas_size (videoWidth videoHeight : Z) : Z * Z :=
  let '(width, height) := scale videoWidth videoHeight in
  (to_unsigned_long width, to_unsigned_long height).

End Capture.

(** ** The kernel's binary64 floats, to compare [Double] with

    The same scaled side computed with Rocq's primitive floats (IEEE 754
    binary64, as JavaScript's numbers are), read back as a rational. *)

Module Binary64.

Definition to_Q (f : float) : option Q :=
  match Prim2SF f with
  | S754_zero _ => Some 0%Q
  | S754_finite sign m e =>
      let v :=
        if 0 <=? e then inject_Z (Z.pos m * 2 ^ e)
        else Qmake (Z.pos m) (Z.to_pos (2 ^ (- e))) in
      Some (if sign then (- v)%Q else v)
  | _ => None
  end.

Definition of_size (z : Z) : float := PrimFloat.of_uint63 (Uint63.of_Z z).

(** [a * (1024 / b)] *)
Definition scaled_side (a b : Z) : float :=
  PrimFloat.mul (of_size a) (PrimFloat.div (of_size 1024) (of_size b)).

Definition agrees (a b : Z) : bool :=
  match to_Q (scaled_side a b) with
  | Some q =>
      Qeq_bool q (Double.mul (inject_Z a) (Double.div 1024 (inject_Z b)))
  | None => false
  end.

(** Every shorter side, for a longer side of [b]. *)
Definition agrees_below (b : Z) : bool :=
  forallb (fun a => agrees (Z.of_nat a) b) (seq 1 (Z.to_nat b)).

(** Frame sizes of cameras, and sizes on which the rounding shows. *)
Definition samples : list (Z * Z) :=
  [(3024, 4032); (1080, 1920); (720, 1280); (2160, 3840); (1440, 2560);
   (2448, 3264); (1536, 2048); (768, 1366); (1001, 3000); (644, 1288);
   (561, 1122); (1127, 1288); (3, 2000); (1, 1025); (1, 4294967295);
   (4294967294, 4294967295); (1025, 1025); (2047, 2049)].

End Binary64.

(** ** The application state *)

Inductive tab : Type := calorie | workout | journey.

(** The result of an analysis; only [totalCalories] is read by the
    handlers (the items, the summary and the advice are displayed). *)
Record NutritionAnalysis : Type := { totalCalories : Z }.

(** A media stream: the identifiers of its tracks. *)
Abbreviation MediaStream := (list nat).

(** The state of the component's [useState] hooks (the inputs and the
    results of the workout and journey tabs, which no handler below reads,
    are left out). *)
Record ReactState : Type := {
  activeTab : tab;
  image : option string;
  isAnalyzing : bool;
  analysis : option NutritionAnalysis;
  error : option string;
  cameraActive : bool;
  mealLogged : bool;
  dailyCalorieGoalStr : string;
  consumedCalories : Z;
  darkMode : bool
}.

(** The browser around the component: the elements behind the two refs,
    the storage, the clock, the camera's tracks, and the asynchronous
    requests that have not answered yet. *)
Record Browser : Type := {
  video : option (option MediaStream);
    (* [videoRef.current] and its [srcObject] *)
  canvas : Z * Z;
    (* [canvasRef.current] (always rendered): its width and height *)
  htmlDark : bool;
    (* the [dark] class of the document element *)
  localStorage : gmap string string;
  today : string;
    (* what [new Date().toDateString()] returns *)
  liveTracks : gset nat;
    (* the tracks whose [readyState] is [live] *)
  pendingCamera : nat;
  pendingReads : nat;
  pendingAnalyses : nat
}.

Record App : Type := { ui : ReactState; env : Browser }.

Section Setters.

Definition on_ui (f : ReactState -> ReactState) (s : App) : App :=
  {| ui := f (ui s); env := env s |}.

Definition on_env (f : Browser -> Browser) (s : App) : App :=
  {| ui := ui s; env := f (env s) |}.

Definition setActiveTab (v : tab) : App -> App :=
  on_ui (fun u =>
    {| activeTab := v; image := image u; isAnalyzing := isAnalyzing u;
       analysis := analysis u; error := error u;
       cameraActive := cameraActive u; mealLogged := mealLogged u;
       dailyCalorieGoalStr := dailyCalorieGoalStr u;
       consumedCalories := consumedCalories u; darkMode := darkMode u |}).

Definition setImage (v : option string) : App -> App :=
  on_ui (fun u =>
    {| activeTab := activeTab u; image := v; isAnalyzing := isAnalyzing u;
       analysis := analysis u; error := error u;
       cameraActive := cameraActive u; mealLogged := mealLogged u;
       dailyCalorieGoalStr := dailyCalorieGoalStr u;
       consumedCalories := consumedCalories u; darkMode := darkMode u |}).

Definition setIsAnalyzing (v : bool) : App -> App :=
  on_ui (fun u =>
    {| activeTab := activeTab u; image := image u; isAnalyzing := v;
       analysis := analysis u; error := error u;
       cameraActive := cameraActive u; mealLogged := mealLogged u;
       dailyCalorieGoalStr := dailyCalorieGoalStr u;
       consumedCalories := consumedCalories u; darkMode := darkMode u |}).

Definition setAnalysis (v : option NutritionAnalysis) : App -> App :=
  on_ui (fun u =>
    {| activeTab := activeTab u; image := image u;
       isAnalyzing := isAnalyzing u; analysis := v; error := error u;
       cameraActive := cameraActive u; mealLogged := mealLogged u;
       dailyCalorieGoalStr := dailyCalorieGoalStr u;
       consumedCalories := consumedCalories u; darkMode := darkMode u |}).

Definition setError (v : option string) : App -> App :=
  on_ui (fun u =>
    {| activeTab := activeTab u; image := image u;
       isAnalyzing := isAnalyzing u; analysis := analysis u; error := v;
       cameraActive := cameraActive u; mealLogged := mealLogged u;
       dailyCalorieGoalStr := dailyCalorieGoalStr u;
       consumedCalories := consumedCalories u; darkMode := darkMode u |}).

Definition setCameraActive (v : bool) : App -> App :=
  on_ui (fun u =>
    {| activeTab := activeTab u; image := image u;
       isAnalyzing := isAnalyzing u; analysis := analysis u;
       error := error u; cameraActive := v; mealLogged := mealLogged u;
       dailyCalorieGoalStr := dailyCalorieGoalStr u;
       consumedCalories := consumedCalories u; darkMode := darkMode u |}).

Definition setMealLogged (v : bool) : App -> App :=
  on_ui (fun u =>
    {| activeTab := activeTab u; image := image u;
       isAnalyzing := isAnalyzing u; analysis := analysis u;
       error := error u; cameraActive := cameraActive u; mealLogged := v;
       dailyCalorieGoalStr := dailyCalorieGoalStr u;
       consumedCalories := consumedCalories u; darkMode := darkMode u |}).

Definition setDailyCalorieGoalStr (v : string) : App -> App :=
  on_ui (fun u =>
    {| activeTab := activeTab u; image := image u;
       isAnalyzing := isAnalyzing u; analysis := analysis u;
       error := error u; cameraActive := cameraActive u;
       mealLogged := mealLogged u; dailyCalorieGoalStr := v;
       consumedCalories := consumedCalories u; darkMode := darkMode u |}).

(** [setConsumedCalories] takes the updater function, as the source
    calls it ([prev => prev + ...]); a constant is [fun _ => c]. *)
Definition setConsumedCalories (f : Z -> Z) : App -> App :=
  on_ui (fun u =>
    {| activeTab := activeTab u; image := image u;
       isAnalyzing := isAnalyzing u; analysis := analysis u;
       error := error u; cameraActive := cameraActive u;
       mealLogged := mealLogged u;
       dailyCalorieGoalStr := dailyCalorieGoalStr u;
       consumedCalories := f (consumedCalories u); darkMode := darkMode u |}).

Definition setDarkMode (f : bool -> bool) : App -> App :=
  on_ui (fun u =>
    {| activeTab := activeTab u; image := image u;
       isAnalyzing := isAnalyzing u; analysis := analysis u;
       error := error u; cameraActive := cameraActive u;
       mealLogged := mealLogged u;
       dailyCalorieGoalStr := dailyCalorieGoalStr u;
       consumedCalories := consumedCalories u; darkMode := f (darkMode u) |}).

Definition set_video (v : option (option MediaStream)) : App -> App :=
  on_env (fun b =>
    {| video := v; canvas := canvas b; htmlDark := htmlDark b;
       localStorage := localStorage b; today := today b;
       liveTracks := liveTracks b; pendingCamera := pendingCamera b;
       pendingReads := pendingReads b;
       pendingAnalyses := pendingAnalyses b |}).

Definition set_canvas (v : Z * Z) : App -> App :=
  on_env (fun b =>
    {| video := video b; canvas := v; htmlDark := htmlDark b;
       localStorage := localStorage b; today := today b;
       liveTracks := liveTracks b; pendingCamera := pendingCamera b;
       pendingReads := pendingReads b;
       pendingAnalyses := pendingAnalyses b |}).

Definition set_htmlDark (v : bool) : App -> App :=
  on_env (fun b =>
    {| video := video b; canvas := canvas b; htmlDark := v;
       localStorage := localStorage b; today := today b;
       liveTracks := liveTracks b; pendingCamera := pendingCamera b;
       pendingReads := pendingReads b;
       pendingAnalyses := pendingAnalyses b |}).

(** [localStorage.setItem(k, v)] *)
Definition setItem (k v : string) : App -> App :=
  on_env (fun b =>
    {| video := video b; canvas := canvas b; htmlDark := htmlDark b;
       localStorage := <[k:=v]> (localStorage b); today := today b;
       liveTracks := liveTracks b; pendingCamera := pendingCamera b;
       pendingReads := pendingReads b;
       pendingAnalyses := pendingAnalyses b |}).

Definition set_today (d : string) : App -> App :=
  on_env (fun b =>
    {| video := video b; canvas := canvas b; htmlDark := htmlDark b;
       localStorage := localStorage b; today := d;
       liveTracks := liveTracks b; pendingCamera := pendingCamera b;
       pendingReads := pendingReads b;
       pendingAnalyses := pendingAnalyses b |}).

Definition set_liveTracks (f : gset nat -> gset nat) : App -> App :=
  on_env (fun b =>
    {| video := video b; canvas := canvas b; htmlDark := htmlDark b;
       localStorage := localStorage b; today := today b;
       liveTracks := f (liveTracks b); pendingCamera := pendingCamera b;
       pendingReads := pendingReads b;
       pendingAnalyses := pendingAnalyses b |}).

Definition set_pendingCamera (f : nat -> nat) : App -> App :=
  on_env (fun b =>
    {| video := video b; canvas := canvas b; htmlDark := htmlDark b;
       localStorage := localStorage b; today := today b;
       liveTracks := liveTracks b; pendingCamera := f (pendingCamera b);
       pendingReads := pendingReads b;
       pendingAnalyses := pendingAnalyses b |}).

Definition set_pendingReads (f : nat -> nat) : App -> App :=
  on_env (fun b =>
    {| video := video b; canvas := canvas b; htmlDark := htmlDark b;
       localStorage := localStorage b; today := today b;
       liveTracks := liveTracks b; pendingCamera := pendingCamera b;
       pendingReads := f (pendingReads b);
       pendingAnalyses := pendingAnalyses b |}).

Definition set_pendingAnalyses (f : nat -> nat) : App -> App :=
  on_env (fun b =>
    {| video := video b; canvas := canvas b; htmlDark := htmlDark b;
       localStorage := localStorage b; today := today b;
       liveTracks := liveTracks b; pendingCamera := pendingCamera b;
       pendingReads := pendingReads b;
       pendingAnalyses := f (pendingAnalyses b) |}).

End Setters.

(** ** The ledger, the goal and the dark-mode flag *)

(** [getTodayKey()]: the clock's answer. *)
Definition getTodayKey (b : Browser) : string := today b.

(** How the [try] block of [loadConsumedCalories] ends. *)
Inductive completion (A : Type) : Type :=
| Return (a : A)
| Fallthrough
| Throw.
Arguments Return {A} a.
Arguments Fallthrough {A}.
Arguments Throw {A}.

(** A string in a condition: the empty string is falsy. *)
Definition truthy_string (s : string) : bool := negb (String.eqb s "").

Definition load_try (ls : gmap string string) (todayKey : string)
  : completion jsval :=
  match ls !! "calorieLog" with
  | Some stored =>
      if truthy_string stored then
        match JSON_parse stored with
        | None => Throw
        | Some v =>
            match get_prop v "date", get_prop v "calories" with
            | Some date, Some calories =>
                if strict_eq_string date todayKey
                then Return calories
                else Fallthrough
            | _, _ => Throw
            end
        end
      else Fallthrough
  | None => Fallthrough
  end.

(** [loadConsumedCalories()], from the storage and the clock it reads:
    the [catch] is empty and the function ends in [return 0]. *)
Definition loadConsumedCalories (ls : gmap string string) (todayKey : string)
  : jsval :=
  match load_try ls todayKey with
  | Return calories => calories
  | Fallthrough | Throw => JNum 0
  end.

(** [localStorage.getItem('dailyCalorieGoal') || '2000'] *)
Definition loadGoalStr (ls : gmap string string) : string :=
  match ls !! "dailyCalorieGoal" with
  | Some v => if truthy_string v then v else "2000"
  | None => "2000"
  end.

(** [localStorage.getItem('darkMode') === 'true'] *)
Definition loadDarkMode (ls : gmap string string) : bool :=
  match ls !! "darkMode" with
  | Some v => String.eqb v "true"
  | None => false
  end.

(** [String(b)] *)
Definition String_of_bool (b : bool) : string :=
  if b then "true" else "false".

(** [parseInt(dailyCalorieGoalStr) || 0] *)
Definition dailyCalorieGoal (u : ReactState) : Z :=
  default 0 (parseInt (dailyCalorieGoalStr u)).

Definition remainingCalories (u : ReactState) : Z :=
  dailyCalorieGoal u - consumedCalories u.

Definition progressPercent (u : ReactState) : jsnum :=
  Math_min
    (js_mul_pos (js_div (consumedCalories u) (dailyCalorieGoal u)) 100) 100.

Definition isOverGoal (u : ReactState) : bool :=
  dailyCalorieGoal u <? consumedCalories u.

(** The width of the progress bar is [progressPercent]; its colour is
    red over the goal, amber above 80. *)
Inductive colour : Type := red | amber | emerald.

Definition barColour (u : ReactState) : colour :=
  if isOverGoal u then red
  else if js_gt (progressPercent u) 80 then amber else emerald.

(** ** Rendering: which view is shown, and the effects *)

Inductive view : Type := initialView | cameraView | previewView.

(** [image] in a condition. *)
Definition truthy_image (u : ReactState) : bool :=
  match image u with
  | Some i => truthy_string i
  | None => false
  end.

(** The ternary of the calorie tab. *)
Definition calorieView (u : ReactState) : view :=
  if (negb (truthy_image u) && negb (cameraActive u))%bool then initialView
  else if cameraActive u then cameraView
  else previewView.

(** The [video] element is part of the camera view only. *)
Definition videoRendered (u : ReactState) : bool :=
  match activeTab u, calorieView u with
  | calorie, cameraView => true
  | _, _ => false
  end.

(** After a render the ref follows the tree: a new element has no
    [srcObject]; an element that stays keeps it. *)
Definition attach_refs (s : App) : App :=
  if videoRendered (ui s) then
    match video (env s) with
    | Some _ => s
    | None => set_video (Some None) s
    end
  else set_video None s.

(** The three [useEffect]s. *)
Definition darkModeEffect (s : App) : App :=
  set_htmlDark (darkMode (ui s))
    (setItem "darkMode" (String_of_bool (darkMode (ui s))) s).

Definition goalEffect (s : App) : App :=
  setItem "dailyCalorieGoal" (dailyCalorieGoalStr (ui s)) s.

Definition calorieLogEffect (s : App) : App :=
  setItem "calorieLog"
    (JSON_stringify_log (getTodayKey (env s)) (consumedCalories (ui s))) s.

(** An effect runs after a render in which its dependency changed. *)
Definition run_effects (old : ReactState) (s : App) : App :=
  let s1 :=
    if Bool.eqb (darkMode old) (darkMode (ui s)) then s
    else darkModeEffect s in
  let s2 :=
    if String.eqb (dailyCalorieGoalStr old) (dailyCalorieGoalStr (ui s1))
    then s1 else goalEffect s1 in
  if consumedCalories old =? consumedCalories (ui s2) then s2
  else calorieLogEffect s2.

Definition commit (old : ReactState) (s : App) : App :=
  run_effects old (attach_refs s).

(** The first render.  The initial state is typed [number]: a stored
    [calories] that is not an integral number is outside this model
    ([None]). *)
Definition initial_ui (ls : gmap string string) (c : Z) : ReactState :=
  {| activeTab := calorie; image := None; isAnalyzing := false;
     analysis := None; error := None; cameraActive := false;
     mealLogged := false; dailyCalorieGoalStr := loadGoalStr ls;
     consumedCalories := c; darkMode := loadDarkMode ls |}.

Definition initial_env (ls : gmap string string) (todayKey : string)
  : Browser :=
  {| video := None; canvas := (300, 150); htmlDark := false;
     localStorage := ls; today := todayKey; liveTracks := ∅;
     pendingCamera := 0; pendingReads := 0; pendingAnalyses := 0 |}.

Definition mount (ls : gmap string string) (todayKey : string)
  : option App :=
  match loadConsumedCalories ls todayKey with
  | JNum c =>
      Some (calorieLogEffect (goalEffect (darkModeEffect
        {| ui := initial_ui ls c; env := initial_env ls todayKey |})))
  | _ => None
  end.

(** ** The handlers *)

Definition camera_error : string :=
  "Could not access camera. Please ensure you've granted permission.".
Definition analysis_error : string :=
  "Analysis failed. Please try again with a clearer photo.".

(** [startCamera] up to its [await] ... *)
Definition startCamera (s : App) : App :=
  set_pendingCamera S (setCameraActive true (setError None s)).

(** ... when [getUserMedia] resolves with a stream of live tracks ... *)
Definition startCamera_resolved (stream : MediaStream) (s : App) : App :=
  let s1 :=
    set_liveTracks (fun l => l ∪ list_to_set stream)
      (set_pendingCamera pred s) in
  match video (env s1) with
  | Some _ => set_video (Some (Some stream)) s1
  | None => s1
  end.

(** ... and when it rejects. *)
Definition startCamera_rejected (s : App) : App :=
  setCameraActive false
    (setError (Some camera_error) (set_pendingCamera pred s)).

Definition stopCamera (s : App) : App :=
  let s1 :=
    match video (env s) with
    | Some (Some stream) =>
        set_video (Some None)
          (set_liveTracks (fun l => l ∖ list_to_set stream) s)
    | _ => s
    end in
  setCameraActive false s1.

(** [captureImage], when the video reports the frame size
    [videoWidth] x [videoHeight]; [ctx] tells whether [getContext('2d')]
    returned a context, [dataUrl] is what [toDataURL] returns. *)
Definition captureImage (videoWidth videoHeight : Z) (ctx : bool)
    (dataUrl : string) (s : App) : App :=
  match video (env s) with
  | Some _ =>
      let s1 := set_canvas (Capture.canvas_size videoWidth videoHeight) s in
      if ctx then stopCamera (setImage (Some dataUrl) s1) else s1
  | None => s
  end.

(** [handleFileUpload]: a read starts when a file was chosen ... *)
Definition handleFileUpload (file : bool) (s : App) : App :=
  if file then set_pendingReads S s else s.

(** ... and [onloadend] receives its result ([None]: the read failed). *)
Definition onloadend (result : option string) (s : App) : App :=
  setMealLogged false
    (setAnalysis None (setImage result (set_pendingReads pred s))).

(** [handleAnalyze] up to its [await], and its two continuations. *)
Definition handleAnalyze (s : App) : App :=
  if truthy_image (ui s) then
    set_pendingAnalyses S
      (setMealLogged false (setError None (setIsAnalyzing true s)))
  else s.

Definition handleAnalyze_resolved (result : NutritionAnalysis) (s : App)
  : App :=
  setIsAnalyzing false (setAnalysis (Some result) (set_pendingAnalyses pred s)).

Definition handleAnalyze_rejected (s : App) : App :=
  setIsAnalyzing false
    (setError (Some analysis_error) (set_pendingAnalyses pred s)).

Definition handleLogMeal (s : App) : App :=
  match analysis (ui s) with
  | Some a =>
      if negb (mealLogged (ui s)) then
        setMealLogged true
          (setConsumedCalories (fun prev => prev + totalCalories a) s)
      else s
  | None => s
  end.

(** [reset] (its resets of the workout and journey inputs left out). *)
Definition reset (s : App) : App :=
  setMealLogged false
    (setCameraActive false (setError None (setAnalysis None (setImage None s)))).

(** ** The transition system *)

(** An object-or-[null] in a condition. *)
Definition present {A : Type} (o : option A) : bool :=
  match o with
  | Some _ => true
  | None => false
  end.

(** What happens to the component: the clicks and inputs of the user,
    the answers of the camera, the file reader and the analysis service
    (with what the browser hands over as parameters), and midnight. *)
Inductive event : Type :=
| ClickTab (t : tab)
| ClickReset
| ToggleDark
| GoalInput (value : string)
| ClickResetDay
| ClickOpenCamera
| CameraGranted (stream : MediaStream)
| CameraDenied
| ClickStopCamera
| ClickCapture (videoWidth videoHeight : Z) (ctx : bool) (dataUrl : string)
| ChooseFile (file : bool)
| FileLoaded (result : option string)
| ClickAnalyze
| AnalysisDone (result : NutritionAnalysis)
| AnalysisFailed
| ClickLogMeal
| DayChange (d : string)
| PlanHandlers (message : option string).

Definition handle (e : event) (s : App) : App :=
  match e with
  | ClickTab t => reset (setActiveTab t s)
  | ClickReset => reset s
  | ToggleDark => setDarkMode negb s
  | GoalInput v => setDailyCalorieGoalStr v s
  | ClickResetDay => setConsumedCalories (fun _ => 0) s
  | ClickOpenCamera => startCamera s
  | CameraGranted stream => startCamera_resolved stream s
  | CameraDenied => startCamera_rejected s
  | ClickStopCamera => stopCamera s
  | ClickCapture w h ctx url => captureImage w h ctx url s
  | ChooseFile file => handleFileUpload file s
  | FileLoaded result => onloadend result s
  | ClickAnalyze => handleAnalyze s
  | AnalysisDone result => handleAnalyze_resolved result s
  | AnalysisFailed => handleAnalyze_rejected s
  | ClickLogMeal => handleLogMeal s
  | DayChange d => set_today d s
  | PlanHandlers message => setError message s
  end.

(** One event: its handler, then the render and the effects. *)
Definition step (s : App) (e : event) : App :=
  commit (ui s) (handle e s).

Definition run (s : App) (es : list event) : App := fold_left step es s.

(** A session: the first render on a given storage and day, then the
    events. *)
Definition session (ls : gmap string string) (todayKey : string)
    (es : list event) : option App :=
  s ← mount ls todayKey; Some (run s es).

(** Which events the rendered page offers.  A click needs its button on
    the page; an answer needs a request that waits for it; the clock and
    the tab bar are always there.  (The header's Reset button shows when
    there is an image or a plan, and [Analyze Another Meal] below an
    analysis: both call [reset], as a click on the current tab does, so
    [ClickReset] is offered always.  The handlers of the workout and
    journey tabs and their answers, [PlanHandlers], touch only [error]
    of the state kept here.) *)
Definition view_eqb (v w : view) : bool :=
  match v, w with
  | initialView, initialView | cameraView, cameraView
  | previewView, previewView => true
  | _, _ => false
  end.

(** The calorie tab is active and shows the view [v]. *)
Definition shown (u : ReactState) (v : view) : bool :=
  match activeTab u with
  | calorie => view_eqb (calorieView u) v
  | _ => false
  end.

Definition enabled (s : App) (e : event) : bool :=
  let u := ui s in
  match e with
  | ClickTab _ | ClickReset | ToggleDark | DayChange _ | PlanHandlers _ => true
  | GoalInput _ | ClickResetDay | ClickOpenCamera | ChooseFile _ =>
      shown u initialView
  | ClickStopCamera | ClickCapture _ _ _ _ => shown u cameraView
  | ClickAnalyze =>
      (shown u previewView && negb (present (analysis u))
       && negb (isAnalyzing u))%bool
  | ClickLogMeal =>
      (shown u previewView && present (analysis u)
       && negb (mealLogged u))%bool
  | CameraGranted _ | CameraDenied => negb (Nat.eqb (pendingCamera (env s)) 0)
  | FileLoaded _ => negb (Nat.eqb (pendingReads (env s)) 0)
  | AnalysisDone _ | AnalysisFailed =>
      negb (Nat.eqb (pendingAnalyses (env s)) 0)
  end.

(** The states of the application: those of a first render, and those an
    offered event leads to. *)
Inductive reachable : App -> Prop :=
| reachable_mount ls d s : mount ls d = Some s -> reachable s
| reachable_step s e :
    reachable s -> enabled s e = true -> reachable (step s e).

(** A run all of whose events are offered when they happen. *)
Fixpoint offered (s : App) (es : list event) : Prop :=
  match es with
  | [] => True
  | e :: r => enabled s e = true /\ offered (step s e) r
  end.

(** ** Predicates the properties are stated with *)

(** The stored ledger record is the component's total, under some day. *)
Definition ledger_stored (s : App) : Prop :=
  exists d, localStorage (env s) !! "calorieLog"
            = Some (JSON_stringify_log d (consumedCalories (ui s))).

(** At most one analysis is in flight, [isAnalyzing] tells whether one
    is, and no result is shown while one is. *)
Definition analysis_inv (s : App) : Prop :=
  (pendingAnalyses (env s) <= 1)%nat
  /\ isAnalyzing (ui s) = negb (Nat.eqb (pendingAnalyses (env s)) 0)
  /\ (isAnalyzing (ui s) = true -> analysis (ui s) = None).

(** The already-logged flag is down whenever there is no image, and
    whenever the camera is on. *)
Definition flag_inv (s : App) : Prop :=
  (truthy_image (ui s) = false -> mealLogged (ui s) = false)
  /\ (cameraActive (ui s) = true -> mealLogged (ui s) = false).


(** An event that touches the ledger or the clock. *)
Definition ledger_event (e : event) : bool :=
  match e with
  | ClickLogMeal | ClickResetDay | DayChange _ => true
  | _ => false
  end.


(** The stored record is well formed, as the data model has it: a JSON
    object with a string [date] and a non-negative integer [calories]. *)
Definition well_formed_log (stored : string) : Prop :=
  exists v d c,
    JSON_parse stored = Some v
    /\ get_prop v "date" = Some (JStr d)
    /\ get_prop v "calories" = Some (JNum c)
    /\ 0 <= c.

(** The specification's sentence on malformed data, as it is written:
    whatever is stored that is not a well-formed record reads as 0. *)
Definition malformed_reads_zero : Prop :=
  forall (ls : gmap string string) (todayKey stored : string),
    ls !! "calorieLog" = Some stored ->
    ~ well_formed_log stored ->
    loadConsumedCalories ls todayKey = JNum 0.


(** The tracks of the stream the video element holds. *)
Definition attached_tracks (s : App) : list nat :=
  match video (env s) with
  | Some (Some stream) => stream
  | _ => []
  end.

(** The events of one meal: a photo is uploaded and analysed. *)
Definition analysed (img : string) (cal : Z) : list event :=
  [ChooseFile true; FileLoaded (Some img); ClickAnalyze;
   AnalysisDone {| totalCalories := cal |}].

(** ... logged, and the page reset for the next one. *)
Definition meal (img : string) (cal : Z) : list event :=
  analysed img cal ++ [ClickLogMeal; ClickReset].

(** The video element holds no stream. *)
Definition detached (s : App) : Prop :=
  match video (env s) with
  | Some (Some _) => False
  | _ => True
  end.

(** ** The states and sessions of the examples *)

Definition day1 : string := "Mon Nov 02 2026".
Definition day2 : string := "Tue Nov 03 2026".
Definition photo : string := "data:image/jpeg;base64,/9j/4AAQ".

(** A stand-in where a session's result is unwrapped. *)
Definition blank : App :=
  {| ui := initial_ui ∅ 0; env := initial_env ∅ day1 |}.


(** The camera is open on a stream of two tracks. *)
Definition filming : App :=
  run (default blank (mount ∅ day1))
    [ClickOpenCamera; CameraGranted [7%nat; 8%nat]].

(** The camera is opened, the stream arrives, the user goes to another
    tab. *)
Definition walk_away : list event :=
  [ClickOpenCamera; CameraGranted [7%nat]; ClickTab workout].

Definition walked_away : App := run (default blank (mount ∅ day1)) walk_away.

(** The same, left through the camera view's own Cancel button. *)
Definition cancelled : App :=
  run (default blank (mount ∅ day1))
    [ClickOpenCamera; CameraGranted [7%nat]; ClickStopCamera].

(** The stream arrives after the user has left the camera view. *)
Definition late_stream : App :=
  run (default blank (mount ∅ day1))
    [ClickOpenCamera; ClickStopCamera; CameraGranted [7%nat]].



(** A record of today whose [calories] is a string, and a goal that is
    not a number. *)
Definition odd_log : string :=
  "{" ++ quote "date" ++ ":" ++ quote day1 ++ ","
      ++ quote "calories" ++ ":" ++ quote "abc" ++ "}".

Definition odd_store : gmap string string :=
  <["dailyCalorieGoal" := "abc"]> (<["calorieLog" := odd_log]> ∅).





(** A session in which 600 were logged. *)
Definition fed : App := run (default blank (mount ∅ day1)) (meal photo 600).

(** The end-to-end example: the goal is 2000 and the ledger is empty. *)
Definition goal_store : gmap string string :=
  <["dailyCalorieGoal" := "2000"]> ∅.

Definition start : App := default blank (mount goal_store day1).

(** ... before its second meal is logged. *)
Definition second_meal : App :=
  run start (meal photo 600 ++ analysed photo 900).

(** ** What the calorie tab displays *)

(** The banner [{error && ...}]: on the calorie tab only the preview
    holds one; the workout and journey tabs hold one each. *)
Definition errorBanner (u : ReactState) : option string :=
  match error u with
  | Some m =>
      if truthy_string m then
        match activeTab u with
        | calorie =>
            match calorieView u with
            | previewView => Some m
            | _ => None
            end
        | _ => Some m
        end
      else None
  | None => None
  end.

(** [Remaining today] on the analysis card:
    [mealLogged ? remainingCalories : remainingCalories - analysis.totalCalories];
    [None] when there is no analysis, hence no card. *)
Definition remainingToday (u : ReactState) : option Z :=
  a ← analysis u;
  Some (if mealLogged u then remainingCalories u
        else remainingCalories u - totalCalories a).

(** The text beside [Eaten] under the progress bar. *)
Definition ledgerLabel (u : ReactState) : string :=
  if isOverGoal u then string_of_Z (Z.abs (remainingCalories u)) ++ " over"
  else string_of_Z (remainingCalories u) ++ " left".

(** ** The analysis request and its answer ([geminiService.ts]) *)

(** [s.split(sep)] for a separator of one character. *)
Fixpoint split_on (sep : ascii) (s : string) : list string :=
  match s with
  | EmptyString => [EmptyString]
  | String c r =>
      if Ascii.eqb c sep then EmptyString :: split_on sep r
      else
        match split_on sep r with
        | x :: xs => String c x :: xs
        | [] => [String c EmptyString]
        end
  end.

Fixpoint has_comma (s : string) : bool :=
  match s with
  | EmptyString => false
  | String c r => (Ascii.eqb c "," || has_comma r)%bool
  end.

Definition goalPrompt (minCalories maxCalories : option Z) : string :=
  match minCalories, maxCalories with
  | Some lo, Some hi =>
      "The user's target calorie range for this meal is " ++ string_of_Z lo
      ++ " to " ++ string_of_Z hi
      ++ " calories. If the current meal is outside this range, provide specific advice on what to remove, reduce, or replace to meet this goal."
  | _, _ => EmptyString
  end.

(** The two parts of the request's content: the image and the prompt. *)
Record AnalysisRequest : Type := {
  mimeType : string;
  data : option string;
  text : string
}.

Definition analyzeFoodImage_request (base64Image : string)
    (minCalories maxCalories : option Z) : AnalysisRequest :=
  {| mimeType := "image/jpeg";
     data := split_on "," base64Image !! 1%nat;
     text :=
       "Analyze this image of food. Identify each food item, estimate its weight/portion size, and provide nutritional information (calories, protein, carbs, fat). Use Google Search to verify calorie counts if you are unsure. Also provide a total calorie count for the entire meal and a brief summary. "
       ++ goalPrompt minCalories maxCalories
       ++ " Be as accurate as possible with estimates." |}.

(** The request [handleAnalyze] sends,
    [analyzeFoodImage(image, remainingCalories > 0 ? remainingCalories : undefined)];
    none when there is no image. *)
Definition handleAnalyze_request (u : ReactState) : option AnalysisRequest :=
  match image u with
  | Some img =>
      if truthy_string img then
        Some (analyzeFoodImage_request img
                (if 0 <? remainingCalories u then Some (remainingCalories u)
                 else None)
                None)
      else None
  | None => None
  end.

(** [JSON.parse(response.text || "{}")] in its [try]: [None] stands for
    the error the [catch] throws instead. *)
Definition parse_response (response_text : option string) : option jsval :=
  JSON_parse
    (match response_text with
     | Some t => if truthy_string t then t else "{}"
     | None => "{}"
     end).

(** A value in a condition. *)
Definition truthy (v : jsval) : bool :=
  match v with
  | JUndefined | JNull => false
  | JBool b => b
  | JNum n => negb (n =? 0)
  | JDec _ _ => true
  | JStr s => truthy_string s
  | JArr _ | JObj _ => true
  end.

(** The breakdown of the analysis card,
    [{analysis && ( ... analysis.items.map(...) ... )}]: the items to
    render; [None] stands for the TypeError of a [map] that is not
    there. *)
Definition breakdown (analysis : jsval) : option (list jsval) :=
  if truthy analysis then
    match get_prop analysis "items" with
    | Some (JArr items) => Some items
    | _ => None
    end
  else Some [].

(** ** The workout and journey tabs *)

Module Gemini.

(** The results of the three other requests, as the service declares
    them. *)
Record CalendarDay : Type := {
  day : string;
  activity : string;
  details : option string
}.

Record WorkoutPlan : Type := {
  targetBodyPart : string;
  duration : option string;
  complementaryWorkouts : option (list string);
  workoutCalendar : option (list CalendarDay);
  dietCalendar : option (list CalendarDay);
  analysis : string
}.

Record ExerciseInfo : Type := {
  name : string;
  explanation : string;
  imageUrl : option string
}.

Record Treadmill : Type := {
  timeMinutes : Q;
  speedMph : Q;
  inclinePercent : Q;
  description : string
}.

Record JourneyPlan : Type := {
  distanceMiles : Q;
  caloriesBurned : Q;
  stepRange : string;
  treadmillEquivalent : option Treadmill;
  summary : string
}.

End Gemini.

(** The [useState] hooks of the two tabs and of the exercise dialog, and
    the requests that have not answered yet.  (The options of the
    requests, which their inputs set and only the requests read, are left
    out: the two weights, the four include switches and the treadmill
    switch.) *)
Record PlanState : Type := {
  exercise : string;
  workoutPlan : option Gemini.WorkoutPlan;
  isPlanning : bool;
  journeyFrom : string;
  journeyTo : string;
  journeyPlan : option Gemini.JourneyPlan;
  isCalculatingJourney : bool;
  selectedExercise : option Gemini.ExerciseInfo;
  isFetchingExercise : bool;
  pendingPlans : nat;
  pendingJourneys : nat;
  pendingExercises : nat
}.

(** The whole component. *)
Record Page : Type := { core : App; plans : PlanState }.

Definition on_core (f : App -> App) (p : Page) : Page :=
  {| core := f (core p); plans := plans p |}.

Definition on_plans (f : PlanState -> PlanState) (p : Page) : Page :=
  {| core := core p; plans := f (plans p) |}.

Definition setExercise (v : string) : Page -> Page :=
  on_plans (fun s =>
    {| exercise := v; workoutPlan := workoutPlan s; isPlanning := isPlanning s;
       journeyFrom := journeyFrom s; journeyTo := journeyTo s;
       journeyPlan := journeyPlan s;
       isCalculatingJourney := isCalculatingJourney s;
       selectedExercise := selectedExercise s;
       isFetchingExercise := isFetchingExercise s;
       pendingPlans := pendingPlans s; pendingJourneys := pendingJourneys s;
       pendingExercises := pendingExercises s |}).

Definition setWorkoutPlan (v : option Gemini.WorkoutPlan) : Page -> Page :=
  on_plans (fun s =>
    {| exercise := exercise s; workoutPlan := v; isPlanning := isPlanning s;
       journeyFrom := journeyFrom s; journeyTo := journeyTo s;
       journeyPlan := journeyPlan s;
       isCalculatingJourney := isCalculatingJourney s;
       selectedExercise := selectedExercise s;
       isFetchingExercise := isFetchingExercise s;
       pendingPlans := pendingPlans s; pendingJourneys := pendingJourneys s;
       pendingExercises := pendingExercises s |}).

Definition setIsPlanning (v : bool) : Page -> Page :=
  on_plans (fun s =>
    {| exercise := exercise s; workoutPlan := workoutPlan s; isPlanning := v;
       journeyFrom := journeyFrom s; journeyTo := journeyTo s;
       journeyPlan := journeyPlan s;
       isCalculatingJourney := isCalculatingJourney s;
       selectedExercise := selectedExercise s;
       isFetchingExercise := isFetchingExercise s;
       pendingPlans := pendingPlans s; pendingJourneys := pendingJourneys s;
       pendingExercises := pendingExercises s |}).

Definition setJourneyFrom (v : string) : Page -> Page :=
  on_plans (fun s =>
    {| exercise := exercise s; workoutPlan := workoutPlan s;
       isPlanning := isPlanning s;
       journeyFrom := v; journeyTo := journeyTo s;
       journeyPlan := journeyPlan s;
       isCalculatingJourney := isCalculatingJourney s;
       selectedExercise := selectedExercise s;
       isFetchingExercise := isFetchingExercise s;
       pendingPlans := pendingPlans s; pendingJourneys := pendingJourneys s;
       pendingExercises := pendingExercises s |}).

Definition setJourneyTo (v : string) : Page -> Page :=
  on_plans (fun s =>
    {| exercise := exercise s; workoutPlan := workoutPlan s;
       isPlanning := isPlanning s;
       journeyFrom := journeyFrom s; journeyTo := v;
       journeyPlan := journeyPlan s;
       isCalculatingJourney := isCalculatingJourney s;
       selectedExercise := selectedExercise s;
       isFetchingExercise := isFetchingExercise s;
       pendingPlans := pendingPlans s; pendingJourneys := pendingJourneys s;
       pendingExercises := pendingExercises s |}).

Definition setJourneyPlan (v : option Gemini.JourneyPlan) : Page -> Page :=
  on_plans (fun s =>
    {| exercise := exercise s; workoutPlan := workoutPlan s;
       isPlanning := isPlanning s;
       journeyFrom := journeyFrom s; journeyTo := journeyTo s;
       journeyPlan := v;
       isCalculatingJourney := isCalculatingJourney s;
       selectedExercise := selectedExercise s;
       isFetchingExercise := isFetchingExercise s;
       pendingPlans := pendingPlans s; pendingJourneys := pendingJourneys s;
       pendingExercises := pendingExercises s |}).

Definition setIsCalculatingJourney (v : bool) : Page -> Page :=
  on_plans (fun s =>
    {| exercise := exercise s; workoutPlan := workoutPlan s;
       isPlanning := isPlanning s;
       journeyFrom := journeyFrom s; journeyTo := journeyTo s;
       journeyPlan := journeyPlan s;
       isCalculatingJourney := v;
       selectedExercise := selectedExercise s;
       isFetchingExercise := isFetchingExercise s;
       pendingPlans := pendingPlans s; pendingJourneys := pendingJourneys s;
       pendingExercises := pendingExercises s |}).

Definition setSelectedExercise (v : option Gemini.ExerciseInfo) : Page -> Page :=
  on_plans (fun s =>
    {| exercise := exercise s; workoutPlan := workoutPlan s;
       isPlanning := isPlanning s;
       journeyFrom := journeyFrom s; journeyTo := journeyTo s;
       journeyPlan := journeyPlan s;
       isCalculatingJourney := isCalculatingJourney s;
       selectedExercise := v;
       isFetchingExercise := isFetchingExercise s;
       pendingPlans := pendingPlans s; pendingJourneys := pendingJourneys s;
       pendingExercises := pendingExercises s |}).

Definition setIsFetchingExercise (v : bool) : Page -> Page :=
  on_plans (fun s =>
    {| exercise := exercise s; workoutPlan := workoutPlan s;
       isPlanning := isPlanning s;
       journeyFrom := journeyFrom s; journeyTo := journeyTo s;
       journeyPlan := journeyPlan s;
       isCalculatingJourney := isCalculatingJourney s;
       selectedExercise := selectedExercise s;
       isFetchingExercise := v;
       pendingPlans := pendingPlans s; pendingJourneys := pendingJourneys s;
       pendingExercises := pendingExercises s |}).

Definition set_pendingPlans (f : nat -> nat) : Page -> Page :=
  on_plans (fun s =>
    {| exercise := exercise s; workoutPlan := workoutPlan s;
       isPlanning := isPlanning s;
       journeyFrom := journeyFrom s; journeyTo := journeyTo s;
       journeyPlan := journeyPlan s;
       isCalculatingJourney := isCalculatingJourney s;
       selectedExercise := selectedExercise s;
       isFetchingExercise := isFetchingExercise s;
       pendingPlans := f (pendingPlans s);
       pendingJourneys := pendingJourneys s;
       pendingExercises := pendingExercises s |}).

Definition set_pendingJourneys (f : nat -> nat) : Page -> Page :=
  on_plans (fun s =>
    {| exercise := exercise s; workoutPlan := workoutPlan s;
       isPlanning := isPlanning s;
       journeyFrom := journeyFrom s; journeyTo := journeyTo s;
       journeyPlan := journeyPlan s;
       isCalculatingJourney := isCalculatingJourney s;
       selectedExercise := selectedExercise s;
       isFetchingExercise := isFetchingExercise s;
       pendingPlans := pendingPlans s;
       pendingJourneys := f (pendingJourneys s);
       pendingExercises := pendingExercises s |}).

Definition set_pendingExercises (f : nat -> nat) : Page -> Page :=
  on_plans (fun s =>
    {| exercise := exercise s; workoutPlan := workoutPlan s;
       isPlanning := isPlanning s;
       journeyFrom := journeyFrom s; journeyTo := journeyTo s;
       journeyPlan := journeyPlan s;
       isCalculatingJourney := isCalculatingJourney s;
       selectedExercise := selectedExercise s;
       isFetchingExercise := isFetchingExercise s;
       pendingPlans := pendingPlans s;
       pendingJourneys := pendingJourneys s;
       pendingExercises := f (pendingExercises s) |}).

(** The messages of the handlers. *)
Definition exercise_missing : string := "Please enter an exercise.".
Definition plan_failed : string :=
  "Failed to generate workout plan. Please try again.".
Definition exercise_failed : string := "Failed to fetch exercise info.".
Definition journey_missing : string :=
  "Please enter both starting point and destination.".
Definition journey_failed : string :=
  "Failed to calculate journey. Please try again.".

(** [handleGenerateWorkout] up to its [await], and its two
    continuations. *)
Definition handleGenerateWorkout (p : Page) : Page :=
  if truthy_string (exercise (plans p)) then
    set_pendingPlans S (on_core (setError None) (setIsPlanning true p))
  else on_core (setError (Some exercise_missing)) p.

Definition handleGenerateWorkout_resolved (result : Gemini.WorkoutPlan) (p : Page)
  : Page :=
  setIsPlanning false (setWorkoutPlan (Some result) (set_pendingPlans pred p)).

Definition handleGenerateWorkout_rejected (p : Page) : Page :=
  setIsPlanning false
    (on_core (setError (Some plan_failed)) (set_pendingPlans pred p)).

(** [s.toLowerCase()] on the letters A to Z (the letters of other
    scripts keep their bytes: no lower-case form of theirs holds one of
    the letters of [rest] and [none], the two words searched below). *)
Definition lower (c : ascii) : ascii :=
  let n := code c in
  if ((65 <=? n) && (n <=? 90))%N then ascii_of_N (n + 32) else c.

Fixpoint toLowerCase (s : string) : string :=
  match s with
  | EmptyString => EmptyString
  | String c r => String (lower c) (toLowerCase r)
  end.

(** [s.includes(sub)] *)
Fixpoint includes (s sub : string) : bool :=
  match strip_prefix sub s with
  | Some _ => true
  | None =>
      match s with
      | String _ r => includes r sub
      | EmptyString => false
      end
  end.

(** [handleExerciseClick(name)] up to its [await], and its two
    continuations. *)
Definition handleExerciseClick (name : string) (p : Page) : Page :=
  if (negb (truthy_string name)
      || includes (toLowerCase name) "rest"
      || includes (toLowerCase name) "none")%bool
  then p
  else set_pendingExercises S (setIsFetchingExercise true p).

Definition handleExerciseClick_resolved (info : Gemini.ExerciseInfo) (p : Page)
  : Page :=
  setIsFetchingExercise false
    (setSelectedExercise (Some info) (set_pendingExercises pred p)).

Definition handleExerciseClick_rejected (p : Page) : Page :=
  setIsFetchingExercise false
    (on_core (setError (Some exercise_failed)) (set_pendingExercises pred p)).

(** [handleCalculateJourney] up to its [await], and its two
    continuations. *)
Definition handleCalculateJourney (p : Page) : Page :=
  if (negb (truthy_string (journeyFrom (plans p)))
      || negb (truthy_string (journeyTo (plans p))))%bool
  then on_core (setError (Some journey_missing)) p
  else
    set_pendingJourneys S
      (on_core (setError None) (setIsCalculatingJourney true p)).

Definition handleCalculateJourney_resolved (result : Gemini.JourneyPlan) (p : Page)
  : Page :=
  setIsCalculatingJourney false
    (setJourneyPlan (Some result) (set_pendingJourneys pred p)).

Definition handleCalculateJourney_rejected (p : Page) : Page :=
  setIsCalculatingJourney false
    (on_core (setError (Some journey_failed)) (set_pendingJourneys pred p)).

(** [reset], whole: the part on the calorie tab's state is [reset]
    above. *)
Definition reset_page (p : Page) : Page :=
  on_core reset
    (setJourneyTo "" (setJourneyFrom "" (setExercise ""
       (setJourneyPlan None (setWorkoutPlan None p))))).

(** The events of the page: those of the calorie tab and of the header
    ([Core]), and those of the two other tabs and of the dialog. *)
Inductive page_event : Type :=
| Core (e : event)
| ExerciseInput (value : string)
| ClickGenerate
| PlanDone (result : Gemini.WorkoutPlan)
| PlanFailed
| ClickNewPlan
| ClickExercise (name : string)
| ExerciseDone (info : Gemini.ExerciseInfo)
| ExerciseFailed
| CloseExercise
| FromInput (value : string)
| ToInput (value : string)
| ClickCalculate
| JourneyDone (result : Gemini.JourneyPlan)
| JourneyFailed
| ClickNewJourney.

Definition page_handle (e : page_event) (p : Page) : Page :=
  match e with
  | Core (ClickTab t) => reset_page (on_core (setActiveTab t) p)
  | Core ClickReset => reset_page p
  | Core e' => on_core (handle e') p
  | ExerciseInput v => setExercise v p
  | ClickGenerate => handleGenerateWorkout p
  | PlanDone result => handleGenerateWorkout_resolved result p
  | PlanFailed => handleGenerateWorkout_rejected p
  | ClickNewPlan => setWorkoutPlan None p
  | ClickExercise n => handleExerciseClick n p
  | ExerciseDone info => handleExerciseClick_resolved info p
  | ExerciseFailed => handleExerciseClick_rejected p
  | CloseExercise => setSelectedExercise None p
  | FromInput v => setJourneyFrom v p
  | ToInput v => setJourneyTo v p
  | ClickCalculate => handleCalculateJourney p
  | JourneyDone result => handleCalculateJourney_resolved result p
  | JourneyFailed => handleCalculateJourney_rejected p
  | ClickNewJourney => setJourneyPlan None p
  end.

(** One event: its handler, then the render and the effects. *)
Definition page_step (p : Page) (e : page_event) : Page :=
  let p' := page_handle e p in
  {| core := commit (ui (core p)) (core p'); plans := plans p' |}.

Definition page_run (p : Page) (es : list page_event) : Page :=
  fold_left page_step es p.

Definition initial_plans : PlanState :=
  {| exercise := ""; workoutPlan := None; isPlanning := false;
     journeyFrom := ""; journeyTo := ""; journeyPlan := None;
     isCalculatingJourney := false; selectedExercise := None;
     isFetchingExercise := false;
     pendingPlans := 0; pendingJourneys := 0; pendingExercises := 0 |}.

Definition page_mount (ls : gmap string string) (todayKey : string)
  : option Page :=
  s ← mount ls todayKey; Some {| core := s; plans := initial_plans |}.

(** The names the plan view makes clickable: the exercise asked for, the
    complementary workouts and the activities of the workout calendar. *)
Definition clickable (exercise : string) (plan : Gemini.WorkoutPlan) : list string :=
  exercise
  :: default [] (Gemini.complementaryWorkouts plan)
  ++ map Gemini.activity (default [] (Gemini.workoutCalendar plan)).

(** Which events the rendered page offers: a button that is rendered and
    not disabled, an input that is rendered, an answer that is awaited.
    The header's Reset shows with an image or a plan; [Analyze Another
    Meal], which also calls [reset], shows below an analysis. *)
Definition page_enabled (p : Page) (e : page_event) : bool :=
  let u := ui (core p) in
  let s := plans p in
  match e with
  | Core (PlanHandlers _) => false
  | Core ClickReset =>
      (truthy_image u || present (workoutPlan s) || present (journeyPlan s)
       || (shown u previewView && present (analysis u)))%bool
  | Core e' => enabled (core p) e'
  | ExerciseInput _ =>
      match activeTab u with
      | workout => negb (present (workoutPlan s))
      | _ => false
      end
  | ClickGenerate =>
      match activeTab u with
      | workout =>
          (negb (present (workoutPlan s))
           && negb (isPlanning s || negb (truthy_string (exercise s))))%bool
      | _ => false
      end
  | PlanDone _ | PlanFailed => negb (Nat.eqb (pendingPlans s) 0)
  | ClickNewPlan =>
      match activeTab u with
      | workout => present (workoutPlan s)
      | _ => false
      end
  | ClickExercise n =>
      match activeTab u, workoutPlan s with
      | workout, Some plan =>
          bool_decide (n ∈ clickable (exercise s) plan)
      | _, _ => false
      end
  | ExerciseDone _ | ExerciseFailed => negb (Nat.eqb (pendingExercises s) 0)
  | CloseExercise =>
      (present (selectedExercise s) || isFetchingExercise s)%bool
  | FromInput _ | ToInput _ =>
      match activeTab u with
      | journey => negb (present (journeyPlan s))
      | _ => false
      end
  | ClickCalculate =>
      match activeTab u with
      | journey =>
          (negb (present (journeyPlan s))
           && negb (isCalculatingJourney s
                    || negb (truthy_string (journeyFrom s))
                    || negb (truthy_string (journeyTo s))))%bool
      | _ => false
      end
  | JourneyDone _ | JourneyFailed => negb (Nat.eqb (pendingJourneys s) 0)
  | ClickNewJourney =>
      match activeTab u with
      | journey => present (journeyPlan s)
      | _ => false
      end
  end.

Inductive page_reachable : Page -> Prop :=
| page_reachable_mount ls d p : page_mount ls d = Some p -> page_reachable p
| page_reachable_step p e :
    page_reachable p -> page_enabled p e = true ->
    page_reachable (page_step p e).


(** What an event of the page does to the calorie tab's state, as an
    event of that tab: the handlers of the other tabs reach it through
    [setError] only. *)
Definition core_of (p : Page) (e : page_event) : event :=
  match e with
  | Core e' => e'
  | ClickGenerate =>
      PlanHandlers (if truthy_string (exercise (plans p)) then None
                    else Some exercise_missing)
  | PlanFailed => PlanHandlers (Some plan_failed)
  | ExerciseFailed => PlanHandlers (Some exercise_failed)
  | ClickCalculate =>
      PlanHandlers
        (if (negb (truthy_string (journeyFrom (plans p)))
             || negb (truthy_string (journeyTo (plans p))))%bool
         then Some journey_missing else None)
  | JourneyFailed => PlanHandlers (Some journey_failed)
  | _ => PlanHandlers (error (ui (core p)))
  end.


(** A run of the page all of whose events are offered when they
    happen. *)
Fixpoint page_offered (p : Page) (es : list page_event) : Prop :=
  match es with
  | [] => True
  | e :: r => page_enabled p e = true /\ page_offered (page_step p e) r
  end.

(** The messages that can be on display: those of the five requests
    that failed. *)
Definition shown_errors : list (option string) :=
  [None; Some camera_error; Some analysis_error; Some plan_failed;
   Some exercise_failed; Some journey_failed].

(** ** Predicates of the further properties *)

(** The storage, the document and the video ref follow the state. *)
Definition in_sync (s : App) : Prop :=
  ledger_stored s
  /\ localStorage (env s) !! "dailyCalorieGoal"
     = Some (dailyCalorieGoalStr (ui s))
  /\ localStorage (env s) !! "darkMode"
     = Some (String_of_bool (darkMode (ui s)))
  /\ htmlDark (env s) = darkMode (ui s)
  /\ present (video (env s)) = videoRendered (ui s).

(** The initial view is shown while [n] camera requests and [m] file
    reads have not answered. *)
Definition idle_with (n m : nat) (s : App) : Prop :=
  reachable s /\ shown (ui s) initialView = true
  /\ pendingCamera (env s) = n /\ pendingReads (env s) = m.

(** The event hands out a stream that holds the track [t]. *)
Definition hands_out (t : nat) (e : event) : bool :=
  match e with
  | CameraGranted stream => bool_decide (t ∈ stream)
  | _ => false
  end.

(** The events that change the total of the day: Log Meal and Reset
    Day. *)
Definition changes_total (e : event) : bool :=
  match e with
  | ClickLogMeal | ClickResetDay => true
  | _ => false
  end.

Definition page_changes_total (e : page_event) : bool :=
  match e with
  | Core e' => changes_total e'
  | _ => false
  end.


(** ** The states of the further examples *)

Definition photo2 : string := "data:image/png;base64,iVBORw0KGgo".

(** Dark mode is on and the goal was retyped. *)
Definition tuned : App :=
  run (default blank (mount ∅ day1)) [ToggleDark; GoalInput "1800"].


(** The camera was asked for and has not answered. *)
Definition awaiting_camera : App :=
  run (default blank (mount ∅ day1)) [ClickOpenCamera].


(** A photo is on the page, with 2000 calories left. *)
Definition photo_ui : ReactState :=
  {| activeTab := calorie; image := Some photo; isAnalyzing := false;
     analysis := None; error := None; cameraActive := false;
     mealLogged := false; dailyCalorieGoalStr := "2000";
     consumedCalories := 0; darkMode := false |}.

Definition blank_page : Page := {| core := blank; plans := initial_plans |}.

(** A workout plan was asked for and has not answered. *)
Definition planning : Page :=
  page_run (default blank_page (page_mount ∅ day1))
    [Core (ClickTab workout); ExerciseInput "Squat"; ClickGenerate].

(** ** Auxiliary definitions of the round trip through JSON *)

(** What [parse_chars] reads back from the quoted form of a character. *)
Definition unit_of (c : ascii) : cunit :=
  match quote_char c with
  | String _ (String "u" _) => Esc (code c)
  | _ => Lit c
  end.

(** The text does not go on with a digit. *)
Definition not_digit_head (s : string) : Prop :=
  match s with
  | String c _ => digit_of c = None
  | EmptyString => True
  end.

(** The text starts as a number does. *)
Definition num_head (s : string) : bool :=
  match s with
  | String c _ => (present (digit_of c) || Ascii.eqb c "-")%bool
  | EmptyString => false
  end.

(** ** Facts about the JSON runtime *)

Lemma parse_chars_quote_char (c : ascii) (r : string) :
  parse_chars (quote_char c ++ r) =
  '(us, rest) ← parse_chars r; Some (unit_of c :: us, rest).
Proof.
  destruct c as [[] [] [] [] [] [] [] []]; reflexivity.
Qed.

Lemma bytes_of_unit_of (c : ascii) (us : list cunit) :
  bytes_of (unit_of c :: us) = c :: bytes_of us.
Proof.
  destruct c as [[] [] [] [] [] [] [] []];
    try reflexivity; destruct us as [|[?|?] ?]; reflexivity.
Qed.

Lemma append_nil_l (s : string) : EmptyString ++ s = s.
Proof. reflexivity. Qed.

Lemma append_cons (c : ascii) (a b : string) :
  String c a ++ b = String c (a ++ b).
Proof. reflexivity. Qed.

Lemma append_assoc' (a b c : string) : (a ++ b) ++ c = a ++ (b ++ c).
Proof.
  induction a as [|x a IH]; [reflexivity|].
  change (String x ((a ++ b) ++ c) = String x (a ++ (b ++ c))).
  now f_equal.
Qed.

Lemma parse_chars_quote_chars (s rest : string) :
  parse_chars (quote_chars s ++ String dquote rest) =
  Some (map unit_of (list_ascii_of_string s), rest).
Proof.
  induction s as [|c s IH]; [reflexivity|].
  cbn [quote_chars list_ascii_of_string map].
  rewrite append_assoc', parse_chars_quote_char, IH. reflexivity.
Qed.

Lemma bytes_of_units (s : string) :
  bytes_of (map unit_of (list_ascii_of_string s)) = list_ascii_of_string s.
Proof.
  induction s as [|c s IH]; [reflexivity|].
  cbn [list_ascii_of_string map]. now rewrite bytes_of_unit_of, IH.
Qed.

(** A quoted string reads back as itself. *)
Lemma parse_string_quote (s rest : string) :
  parse_string ((quote_chars s ++ String dquote EmptyString) ++ rest) =
  Some (s, rest).
Proof.
  unfold parse_string. rewrite append_assoc'.
  change (String dquote EmptyString ++ rest) with (String dquote rest).
  rewrite parse_chars_quote_chars. cbn [mbind option_bind].
  now rewrite bytes_of_units, string_of_list_ascii_of_string.
Qed.

Lemma scan_digits_string_of_uint (u : Decimal.uint) (rest : string) :
  not_digit_head rest ->
  scan_digits (NilEmpty.string_of_uint u ++ rest) = (u, rest).
Proof.
  intros Hr. induction u as [|u IH|u IH|u IH|u IH|u IH|u IH|u IH|u IH|u IH|u IH];
    cbn [NilEmpty.string_of_uint]; rewrite ?append_cons, ?append_nil_l.
  - destruct rest as [|c r]; [reflexivity|].
    cbn [scan_digits]. unfold not_digit_head in Hr. now rewrite Hr.
  - cbn [scan_digits]. change (digit_of "0") with (Some Decimal.D0). now rewrite IH.
  - cbn [scan_digits]. change (digit_of "1") with (Some Decimal.D1). now rewrite IH.
  - cbn [scan_digits]. change (digit_of "2") with (Some Decimal.D2). now rewrite IH.
  - cbn [scan_digits]. change (digit_of "3") with (Some Decimal.D3). now rewrite IH.
  - cbn [scan_digits]. change (digit_of "4") with (Some Decimal.D4). now rewrite IH.
  - cbn [scan_digits]. change (digit_of "5") with (Some Decimal.D5). now rewrite IH.
  - cbn [scan_digits]. change (digit_of "6") with (Some Decimal.D6). now rewrite IH.
  - cbn [scan_digits]. change (digit_of "7") with (Some Decimal.D7). now rewrite IH.
  - cbn [scan_digits]. change (digit_of "8") with (Some Decimal.D8). now rewrite IH.
  - cbn [scan_digits]. change (digit_of "9") with (Some Decimal.D9). now rewrite IH.
Qed.

Lemma nzhead_not_D0 (u v : Decimal.uint) : Decimal.nzhead u <> Decimal.D0 v.
Proof. induction u; cbn; try discriminate; assumption. Qed.

Lemma unorm_to_uint (p : positive) :
  Decimal.unorm (Pos.to_uint p) = Pos.to_uint p.
Proof.
  rewrite <- (DecimalPos.Unsigned.to_of (Pos.to_uint p)).
  now rewrite DecimalPos.Unsigned.of_to.
Qed.

(** The decimal writing of a positive number is a valid integer part. *)
Lemma valid_int_part_to_uint (p : positive) :
  valid_int_part (Pos.to_uint p) = true.
Proof.
  pose proof (unorm_to_uint p) as Hn.
  pose proof (DecimalPos.Unsigned.to_uint_nonnil p) as Hnil.
  destruct (Pos.to_uint p) as [|u|u|u|u|u|u|u|u|u|u];
    try reflexivity; [congruence|].
  unfold Decimal.unorm in Hn.
  destruct (Decimal.nzhead (Decimal.D0 u)) eqn:E.
  - injection Hn as <-. reflexivity.
  - now apply nzhead_not_D0 in E.
  - discriminate Hn. - discriminate Hn. - discriminate Hn.
  - discriminate Hn. - discriminate Hn. - discriminate Hn.
  - discriminate Hn. - discriminate Hn. - discriminate Hn.
Qed.

Lemma of_uint_to_uint (p : positive) : Z.of_uint (Pos.to_uint p) = Z.pos p.
Proof.
  unfold Z.of_uint. now rewrite DecimalPos.Unsigned.of_to.
Qed.

Lemma digit_head_to_uint (p : positive) (rest : string) :
  exists c r, NilEmpty.string_of_uint (Pos.to_uint p) ++ rest = String c r
              /\ Ascii.eqb c "-" = false.
Proof.
  pose proof (DecimalPos.Unsigned.to_uint_nonnil p) as Hnil.
  destruct (Pos.to_uint p); [congruence| ..];
    cbn [NilEmpty.string_of_uint]; rewrite append_cons;
    eexists _, _; split; reflexivity.
Qed.

(** An integer, written in decimal and followed by a closing brace, reads
    back as itself. *)
Lemma parse_number_string_of_Z (z : Z) (rest : string) :
  parse_number (string_of_Z z ++ String "}" rest) =
  Some (JNum z, String "}" rest).
Proof.
  assert (Hpos : forall (p : positive) (neg : bool),
    (let '(i, s2) :=
       scan_digits (NilEmpty.string_of_uint (Pos.to_uint p) ++ String "}" rest) in
     if valid_int_part i then
       '(frac, s3) ← scan_frac s2;
       '(ex, s4) ← scan_exp s3;
       let sgn (z : Z) := if neg then - z else z in
       match frac, ex with
       | None, None => Some (JNum (sgn (Z.of_uint i)), s4)
       | _, _ =>
           let f := default Decimal.Nil frac in
           let m := Z.of_uint (Decimal.app i f) in
           let k := default 0 ex - Z.of_nat (Decimal.nb_digits f) in
           Some (decimal_value (sgn m) k, s4)
       end
     else None) =
    Some (JNum (if neg then - Z.pos p else Z.pos p), String "}" rest)).
  { intros p neg. rewrite scan_digits_string_of_uint by reflexivity.
    rewrite valid_int_part_to_uint. cbn. now rewrite of_uint_to_uint. }
  destruct z as [|p|p]; unfold string_of_Z, parse_number.
  - reflexivity.
  - cbn [Z.to_int NilEmpty.string_of_int].
    destruct (digit_head_to_uint p (String "}" rest)) as (c & r & E & Hc).
    specialize (Hpos p false). rewrite E in Hpos |- *.
    destruct c as [[] [] [] [] [] [] [] []]; try discriminate Hc; exact Hpos.
  - cbn [Z.to_int NilEmpty.string_of_int]. rewrite append_cons.
    exact (Hpos p true).
Qed.

Lemma parse_value_object (n : nat) (r : string) :
  parse_value (S n) (String "{" (String dquote r)) =
  '(fs, rest) ← parse_members n (String dquote r); Some (JObj fs, rest).
Proof. reflexivity. Qed.

Lemma parse_value_string (n : nat) (s rest : string) :
  parse_value (S n) (String dquote ((quote_chars s ++ String dquote EmptyString) ++ rest)) =
  Some (JStr s, rest).
Proof.
  change (parse_value (S n) (String dquote ?r))
    with ('(str, rest) ← parse_string r; Some (JStr str, rest)).
  now rewrite parse_string_quote.
Qed.

Lemma parse_value_number (n : nat) (s : string) :
  num_head s = true -> parse_value (S n) s = parse_number s.
Proof.
  destruct s as [|c r]; [discriminate|].
  destruct c as [[] [] [] [] [] [] [] []]; try discriminate; reflexivity.
Qed.

Lemma num_head_string_of_Z (z : Z) (rest : string) :
  num_head (string_of_Z z ++ rest) = true.
Proof.
  destruct z as [|p|p]; try reflexivity.
  unfold string_of_Z. cbn [Z.to_int NilEmpty.string_of_int].
  pose proof (DecimalPos.Unsigned.to_uint_nonnil p) as Hnil.
  destruct (Pos.to_uint p); [congruence| ..]; reflexivity.
Qed.

Lemma parse_members_key (n : nat) (k r2 : string) :
  parse_members (S n)
    (String dquote ((quote_chars k ++ String dquote EmptyString) ++ String ":" r2)) =
  '(v, r3) ← parse_value n r2;
  match skip_ws r3 with
  | String "," r4 => '(fs, rest) ← parse_members n r4; Some ((k, v) :: fs, rest)
  | String "}" r4 => Some ([(k, v)], r4)
  | _ => None
  end.
Proof.
  change (parse_members (S n) (String dquote ?r))
    with ('(k, r1) ← parse_string r;
          match skip_ws r1 with
          | String ":" r2 =>
              '(v, r3) ← parse_value n r2;
              match skip_ws r3 with
              | String "," r4 =>
                  '(fs, rest) ← parse_members n r4;
                  Some ((k, v) :: fs, rest)
              | String "}" r4 => Some ([(k, v)], r4)
              | _ => None
              end
          | _ => None
          end).
  now rewrite parse_string_quote.
Qed.

Lemma parse_value_log (d : string) (c : Z) (n : nat) :
  parse_value (S (S (S (S n)))) (JSON_stringify_log d c) =
  Some (JObj [("date", JStr d); ("calories", JNum c)], EmptyString).
Proof.
  unfold JSON_stringify_log, quote.
  rewrite !append_cons, !append_nil_l.
  rewrite parse_value_object, parse_members_key, parse_value_string.
  cbn [mbind option_bind]. 
  change (skip_ws (String "," ?r)) with (String "," r). cbv iota beta.
  rewrite parse_members_key.
  rewrite parse_value_number by apply num_head_string_of_Z.
  rewrite parse_number_string_of_Z. reflexivity.
Qed.

Lemma JSON_parse_stringify_log (d : string) (c : Z) :
  JSON_parse (JSON_stringify_log d c) =
  Some (JObj [("date", JStr d); ("calories", JNum c)]).
Proof.
  unfold JSON_parse.
  assert (E : exists n, (2 * String.length (JSON_stringify_log d c) + 2 = S (S (S (S n))))%nat).
  { unfold JSON_stringify_log. rewrite append_cons.
    match goal with |- context [String _ ?x] => set (r := x) end.
    cbn [String.length]. exists (2 * String.length r)%nat. lia. }
  destruct E as [n ->]. now rewrite parse_value_log.
Qed.


(** ** Facts about the ledger and the transition system *)

Lemma truthy_stringify_log (d : string) (c : Z) :
  truthy_string (JSON_stringify_log d c) = true.
Proof. reflexivity. Qed.

(** Reading a record the application wrote. *)
Lemma load_stringify_log (ls : gmap string string) (d t : string) (c : Z) :
  ls !! "calorieLog" = Some (JSON_stringify_log d c) ->
  loadConsumedCalories ls t = if String.eqb d t then JNum c else JNum 0.
Proof.
  intros E. unfold loadConsumedCalories, load_try.
  rewrite E, truthy_stringify_log, JSON_parse_stringify_log.
  cbn. destruct (String.eqb d t); reflexivity.
Qed.

Lemma ui_attach_refs (s : App) : ui (attach_refs s) = ui s.
Proof.
  unfold attach_refs. destruct (videoRendered (ui s)); [|reflexivity].
  destruct (video (env s)); reflexivity.
Qed.

Lemma ui_run_effects (old : ReactState) (s : App) : ui (run_effects old s) = ui s.
Proof.
  unfold run_effects.
  repeat match goal with |- context [if ?b then _ else _] => destruct b end;
    reflexivity.
Qed.

Lemma ui_step (s : App) (e : event) : ui (step s e) = ui (handle e s).
Proof. unfold step, commit. now rewrite ui_run_effects, ui_attach_refs. Qed.

Lemma today_step (s : App) (e : event) :
  today (env (step s e)) = today (env (handle e s)).
Proof.
  unfold step, commit, run_effects, attach_refs.
  repeat match goal with |- context [if ?b then _ else _] => destruct b end;
  try destruct (video (env (handle e s))); reflexivity.
Qed.

Ltac split_state s :=
  let u := fresh "u" in
  destruct s as [u [[[?|]|] ? ? ? ? ? ? ? ?]].

Ltac case_if :=
  match goal with
  | |- context [if ?b then _ else _] => destruct b eqn:?
  | |- context [match ?o with Some _ => _ | None => _ end] => destruct o eqn:?
  end.

Lemma localStorage_handle (s : App) (e : event) :
  localStorage (env (handle e s)) = localStorage (env s).
Proof.
  split_state s; destruct e; cbn;
    unfold startCamera_resolved, stopCamera, captureImage, handleFileUpload,
      handleAnalyze, handleLogMeal; cbn; repeat case_if; reflexivity.
Qed.


Lemma calorieLog_insert_other (k v : string) (ls : gmap string string) :
  k <> "calorieLog" -> <[k:=v]> ls !! "calorieLog" = ls !! "calorieLog".
Proof. intros H. now rewrite lookup_insert_ne. Qed.

(** What a step leaves under the ledger's key. *)
Lemma calorieLog_step (s : App) (e : event) :
  localStorage (env (step s e)) !! "calorieLog" =
  if consumedCalories (ui s) =? consumedCalories (ui (handle e s))
  then localStorage (env s) !! "calorieLog"
  else Some (JSON_stringify_log (today (env (handle e s)))
               (consumedCalories (ui (handle e s)))).
Proof.
  rewrite <- (localStorage_handle s e).
  unfold step, commit, run_effects.
  generalize (handle e s) as s'. intros s'.
  assert (A : localStorage (env (attach_refs s')) = localStorage (env s')
              /\ today (env (attach_refs s')) = today (env s')).
  { unfold attach_refs. repeat case_if; split; reflexivity. }
  destruct A as [A1 A2].
  pose proof (ui_attach_refs s') as A3.
  destruct (attach_refs s') as [u' b']. cbn in A1, A2, A3. subst u'.
  cbn. repeat case_if; cbn in *; unfold getTodayKey;
    rewrite ?calorieLog_insert_other by discriminate;
    rewrite ?lookup_insert_eq, ?A1, ?A2; congruence.
Qed.

Lemma mount_inv (ls : gmap string string) (d : string) (s : App) :
  mount ls d = Some s ->
  exists c, loadConsumedCalories ls d = JNum c
            /\ ui s = initial_ui ls c
            /\ today (env s) = d
            /\ localStorage (env s) !! "calorieLog"
               = Some (JSON_stringify_log d c)
            /\ video (env s) = None
            /\ liveTracks (env s) = ∅
            /\ pendingAnalyses (env s) = 0%nat.
Proof.
  unfold mount. destruct (loadConsumedCalories ls d); try discriminate.
  intros [= <-]. eexists. repeat split. cbn. unfold getTodayKey. cbn.
  now rewrite lookup_insert_eq.
Qed.

Lemma reachable_ledger_stored (s : App) : reachable s -> ledger_stored s.
Proof.
  induction 1 as [ls d s Hm | s e Hs IH He].
  - apply mount_inv in Hm as (c & _ & Hu & _ & Hl & _). exists d.
    now rewrite Hu.
  - unfold ledger_stored. rewrite calorieLog_step, ui_step.
    destruct (Z.eqb_spec (consumedCalories (ui s))
                (consumedCalories (ui (handle e s)))) as [E|E].
    + rewrite <- E. exact IH.
    + eexists. reflexivity.
Qed.


Lemma env_commit (old : ReactState) (s : App) :
  pendingAnalyses (env (commit old s)) = pendingAnalyses (env s)
  /\ liveTracks (env (commit old s)) = liveTracks (env s)
  /\ today (env (commit old s)) = today (env s).
Proof.
  unfold commit, run_effects, attach_refs.
  repeat case_if; repeat split; reflexivity.
Qed.

Lemma pendingAnalyses_step (s : App) (e : event) :
  pendingAnalyses (env (step s e)) = pendingAnalyses (env (handle e s)).
Proof. apply env_commit. Qed.

Lemma shown_initial (u : ReactState) :
  shown u initialView = true ->
  activeTab u = calorie /\ truthy_image u = false /\ cameraActive u = false.
Proof.
  unfold shown, calorieView.
  destruct (activeTab u), (truthy_image u), (cameraActive u);
    cbn; intuition congruence.
Qed.

Lemma shown_camera (u : ReactState) :
  shown u cameraView = true -> activeTab u = calorie /\ cameraActive u = true.
Proof.
  unfold shown, calorieView.
  destruct (activeTab u), (truthy_image u), (cameraActive u);
    cbn; intuition congruence.
Qed.

Lemma shown_preview (u : ReactState) :
  shown u previewView = true ->
  activeTab u = calorie /\ truthy_image u = true /\ cameraActive u = false.
Proof.
  unfold shown, calorieView.
  destruct (activeTab u), (truthy_image u), (cameraActive u);
    cbn; intuition congruence.
Qed.

(** The handlers that branch on the browser's state, seen from the
    component's state. *)
Lemma ui_startCamera_resolved (stream : MediaStream) (s : App) :
  ui (startCamera_resolved stream s) = ui s.
Proof. unfold startCamera_resolved. cbn. now destruct (video (env s)). Qed.

Lemma ui_stopCamera (s : App) : ui (stopCamera s) = ui (setCameraActive false s).
Proof. unfold stopCamera. now destruct (video (env s)) as [[?|]|]. Qed.

Lemma ui_captureImage (w h : Z) (ctx : bool) (url : string) (s : App) :
  ui (captureImage w h ctx url s) =
  if (present (video (env s)) && ctx)%bool
  then ui (setCameraActive false (setImage (Some url) s))
  else ui s.
Proof.
  unfold captureImage. destruct (video (env s)) as [o|]; [|reflexivity].
  destruct ctx; [|reflexivity]. rewrite ui_stopCamera. reflexivity.
Qed.

Lemma pendingAnalyses_handle (s : App) (e : event) :
  pendingAnalyses (env (handle e s)) =
  match e with
  | ClickAnalyze =>
      if truthy_image (ui s) then S (pendingAnalyses (env s))
      else pendingAnalyses (env s)
  | AnalysisDone _ | AnalysisFailed => pred (pendingAnalyses (env s))
  | _ => pendingAnalyses (env s)
  end.
Proof.
  destruct e; cbn;
    unfold startCamera_resolved, stopCamera, captureImage, stopCamera,
      handleFileUpload, handleAnalyze, handleLogMeal; cbn;
    repeat case_if; reflexivity.
Qed.

Lemma present_false {A : Type} (o : option A) : present o = false -> o = None.
Proof. now destruct o. Qed.

Lemma present_true {A : Type} (o : option A) :
  present o = true -> exists a, o = Some a.
Proof. destruct o; [eauto | discriminate]. Qed.

Ltac use_enabled :=
  repeat match goal with
  | H : (_ && _)%bool = true |- _ => apply andb_true_iff in H as [? ?]
  | H : negb _ = true |- _ => apply negb_true_iff in H
  | H : negb _ = false |- _ => apply negb_false_iff in H
  | H : shown _ initialView = true |- _ => apply shown_initial in H as (? & ? & ?)
  | H : shown _ cameraView = true |- _ => apply shown_camera in H as (? & ?)
  | H : shown _ previewView = true |- _ => apply shown_preview in H as (? & ? & ?)
  | H : Nat.eqb _ _ = false |- _ => apply Nat.eqb_neq in H
  | H : present _ = false |- _ => apply present_false in H
  | H : present _ = true |- _ => apply present_true in H as [? ?]
  end.

Ltac propagate :=
  repeat match goal with
  | E : ?x = _, H : context [match ?x with _ => _ end] |- _ =>
      rewrite E in H; cbn in H
  end.

Lemma step_invariants (s : App) (e : event) :
  analysis_inv s -> flag_inv s -> enabled s e = true ->
  analysis_inv (step s e) /\ flag_inv (step s e).
Proof.
  unfold analysis_inv, flag_inv.
  rewrite !ui_step, !pendingAnalyses_step, pendingAnalyses_handle.
  intros (Hp & Ha & Hn) (Hi & Hc) He.
  destruct (pendingAnalyses (env s)) as [|[|n]] eqn:Ep; [| |lia];
  destruct e; cbn [enabled handle] in *; use_enabled;
    rewrite ?ui_startCamera_resolved, ?ui_stopCamera, ?ui_captureImage;
    unfold handleFileUpload, handleAnalyze, handleLogMeal, truthy_image in *;
    repeat case_if; cbn in *; propagate; intuition (try congruence; try lia).
Qed.


Lemma reachable_invariants (s : App) :
  reachable s -> analysis_inv s /\ flag_inv s.
Proof.
  induction 1 as [ls d s Hm | s e Hs [IHa IHf] He].
  - apply mount_inv in Hm as (c & _ & Hu & _ & _ & _ & _ & Hp).
    unfold analysis_inv, flag_inv. rewrite Hu, Hp. cbn. intuition lia.
  - now apply step_invariants.
Qed.






(** Events that leave the ledger and the clock alone leave the total,
    the day and the stored record as they are. *)
Lemma quiet_step (s : App) (e : event) :
  ledger_event e = false ->
  consumedCalories (ui (step s e)) = consumedCalories (ui s)
  /\ today (env (step s e)) = today (env s)
  /\ localStorage (env (step s e)) !! "calorieLog"
     = localStorage (env s) !! "calorieLog".
Proof.
  intros He.
  assert (Hc : consumedCalories (ui (handle e s)) = consumedCalories (ui s)).
  { destruct e; try discriminate He; cbn [handle];
      rewrite ?ui_startCamera_resolved, ?ui_stopCamera, ?ui_captureImage;
      unfold handleFileUpload, handleAnalyze; repeat case_if; reflexivity. }
  assert (Ht : today (env (handle e s)) = today (env s)).
  { destruct e; try discriminate He; cbn [handle];
      unfold startCamera_resolved, stopCamera, captureImage, stopCamera,
        handleFileUpload, handleAnalyze; cbn; repeat case_if; reflexivity. }
  rewrite calorieLog_step, ui_step, today_step, Hc, Ht, Z.eqb_refl.
  repeat split.
Qed.

Lemma quiet_run (es : list event) (s : App) :
  Forall (fun e => ledger_event e = false) es ->
  consumedCalories (ui (run s es)) = consumedCalories (ui s)
  /\ today (env (run s es)) = today (env s)
  /\ localStorage (env (run s es)) !! "calorieLog"
     = localStorage (env s) !! "calorieLog".
Proof.
  revert s. induction es as [|e es IH]; intros s H; [repeat split|].
  inversion H as [|? ? He Hes]; subst. cbn [run fold_left].
  destruct (IH (step s e) Hes) as (A & B & C).
  destruct (quiet_step s e He) as (A' & B' & C').
  unfold run in *. rewrite A, B, C. repeat split; assumption.
Qed.

(** What logging does to the total, the day and the stored record. *)
Lemma log_step (s : App) (a : NutritionAnalysis) :
  analysis (ui s) = Some a -> mealLogged (ui s) = false ->
  consumedCalories (ui (step s ClickLogMeal))
    = consumedCalories (ui s) + totalCalories a
  /\ mealLogged (ui (step s ClickLogMeal)) = true
  /\ today (env (step s ClickLogMeal)) = today (env s)
  /\ localStorage (env (step s ClickLogMeal)) !! "calorieLog"
     = if totalCalories a =? 0 then localStorage (env s) !! "calorieLog"
       else Some (JSON_stringify_log (today (env s))
                    (consumedCalories (ui s) + totalCalories a)).
Proof.
  intros Ha Hm.
  assert (E : handle ClickLogMeal s =
              setMealLogged true
                (setConsumedCalories (fun prev => prev + totalCalories a) s)).
  { cbn. unfold handleLogMeal. now rewrite Ha, Hm. }
  rewrite calorieLog_step, ui_step, today_step, E. cbn.
  repeat split.
  destruct (Z.eqb_spec (totalCalories a) 0) as [E0|E0].
  - rewrite E0, Z.add_0_r, Z.eqb_refl. reflexivity.
  - destruct (Z.eqb_spec (consumedCalories (ui s))
                (consumedCalories (ui s) + totalCalories a)); [lia|reflexivity].
Qed.

Lemma session_reachable (ls : gmap string string) (d : string)
    (es : list event) (s0 s : App) :
  mount ls d = Some s0 -> offered s0 es -> run s0 es = s -> reachable s.
Proof.
  intros Hm Ho <-. assert (Hr : reachable s0) by (eapply reachable_mount; eauto).
  clear Hm. revert s0 Ho Hr. induction es as [|e es IH]; intros s0 Ho Hr.
  - exact Hr.
  - destruct Ho as [He Ho]. cbn. apply IH; [exact Ho|].
    now apply reachable_step.
Qed.

(** ** Facts about the scaling and the progress bar *)

Lemma Qgt_bool_inject (a b : Z) :
  Capture.Qgt_bool (inject_Z a) (inject_Z b) = (b <? a).
Proof.
  unfold Capture.Qgt_bool, Qle_bool. cbn. rewrite !Z.mul_1_r.
  now rewrite Z.ltb_antisym.
Qed.

Lemma Qgt_bool_maxDim (a : Z) :
  Capture.Qgt_bool (inject_Z a) Capture.maxDim = (1024 <? a).
Proof. apply (Qgt_bool_inject a 1024). Qed.

Lemma to_unsigned_long_inject (a : Z) :
  0 <= a < 2 ^ 32 -> Capture.to_unsigned_long (inject_Z a) = a.
Proof.
  intros H. unfold Capture.to_unsigned_long. cbn [inject_Z Qnum Qden].
  rewrite Z.quot_1_r. now apply Z.mod_small.
Qed.

Lemma round_half_even_err (p q : Z) :
  0 < q -> Z.abs (2 * (Double.round_half_even p q * q) - 2 * p) <= q.
Proof.
  intros Hq. unfold Double.round_half_even.
  pose proof (Z.div_mod p q ltac:(lia)) as Hd.
  pose proof (Z.mod_pos_bound p q Hq) as Hr.
  destruct (Z.ltb_spec (2 * (p mod q)) q);
    [|destruct (Z.ltb_spec q (2 * (p mod q)));
      [|destruct (Z.even (p / q))]];
    rewrite ?Z.mul_add_distr_r, ?Z.mul_1_l, (Z.mul_comm (p / q) q);
    generalize dependent (q * (p / q)); intros; lia.
Qed.

(** Below 2^52 the rounding has a relative error of at most 2^-53. *)
Lemma round_pos_bounds (n d : positive) :
  Z.pos n < Z.pos d * 2 ^ 52 ->
  ((Z.pos n # d) * (1 - Double.u) <= Double.round_pos n d
   /\ Double.round_pos n d <= (Z.pos n # d) * (1 + Double.u))%Q.
Proof.
  intros Hx. unfold Double.round_pos.
  set (lN := Z.log2 (Z.pos n)). set (lD := Z.log2 (Z.pos d)).
  destruct (Z.log2_spec (Z.pos n) ltac:(lia)) as [HN1 HN2]. fold lN in HN1, HN2.
  destruct (Z.log2_spec (Z.pos d) ltac:(lia)) as [HD1 HD2]. fold lD in HD1, HD2.
  assert (HlN : 0 <= lN) by apply Z.log2_nonneg.
  assert (HlD : 0 <= lD) by apply Z.log2_nonneg.
  assert (Hs0 : 0 <= 52 - (lN - lD)).
  { assert (2 ^ lN < 2 ^ (Z.succ lD + 52)).
    { rewrite Z.pow_add_r by lia. nia. }
    apply Z.pow_lt_mono_r_iff in H; lia. }
  destruct (Z.leb_spec 0 (52 - (lN - lD))) as [_|]; [|lia].
  set (s0 := 52 - (lN - lD)) in *.
  set (s := if Z.pos d * 2 ^ 52 <=? Z.pos n * 2 ^ s0 then s0 else s0 + 1).
  assert (Hs : 0 <= s) by (unfold s; destruct (_ <=? _); lia).
  assert (Hb : Z.pos d * 2 ^ 52 <= Z.pos n * 2 ^ s).
  { unfold s. destruct (Z.leb_spec (Z.pos d * 2 ^ 52) (Z.pos n * 2 ^ s0)) as [H|H];
      [exact H|].
    assert (E : 2 ^ lN * 2 ^ (s0 + 1) = 2 ^ 52 * 2 ^ Z.succ lD).
    { rewrite <- !Z.pow_add_r by lia. f_equal. unfold s0. lia. }
    assert (0 < 2 ^ (s0 + 1)) by (apply Z.pow_pos_nonneg; lia).
    nia. }
  assert (HP : 0 < 2 ^ s) by (apply Z.pow_pos_nonneg; lia).
  pose proof (round_half_even_err (Z.pos n * 2 ^ s) (Z.pos d) ltac:(lia)) as He.
  set (m := Double.round_half_even (Z.pos n * 2 ^ s) (Z.pos d)) in *.
  unfold Qle, Qmult, Qminus, Qplus, Qopp, Double.u. cbn [Qnum Qden].
  rewrite !Pos2Z.inj_mul, Z2Pos.id by lia.
  change (Z.pos 9007199254740992) with (2 ^ 53).
  set (P := 2 ^ s) in *. clearbody P m. clear - He Hb HP.
  set (A := m * Z.pos d) in *. set (B := Z.pos n * P) in *.
  split.
  - replace (Z.pos n * (1 * 2 ^ 53 + -1 * 1) * P)
      with (B * (2 ^ 53 - 1)) by (unfold B; ring).
    replace (m * (Z.pos d * (1 * 2 ^ 53))) with (A * 2 ^ 53) by (unfold A; ring).
    change (2 ^ 53) with 9007199254740992 in *.
    change (2 ^ 52) with 4503599627370496 in *. lia.
  - replace (Z.pos n * (1 * 2 ^ 53 + 1 * 1) * P)
      with (B * (2 ^ 53 + 1)) by (unfold B; ring).
    replace (m * (Z.pos d * (1 * 2 ^ 53))) with (A * 2 ^ 53) by (unfold A; ring).
    change (2 ^ 53) with 9007199254740992 in *.
    change (2 ^ 52) with 4503599627370496 in *. lia.
Qed.

Lemma round_bounds (x : Q) :
  (0 < x)%Q -> (x < 4503599627370496)%Q ->
  (x * (1 - Double.u) <= Double.round x /\ Double.round x <= x * (1 + Double.u))%Q.
Proof.
  destruct x as [[|n|n] d]; unfold Qlt; cbn [Qnum Qden]; try lia.
  intros _ Hx. unfold Double.round. cbn [Qnum Qden].
  apply round_pos_bounds. change (2 ^ 52) with 4503599627370496. lia.
Qed.


Lemma to_unsigned_long_floor (v : Q) :
  (0 <= v)%Q -> (v < 4294967296)%Q -> Capture.to_unsigned_long v = Qfloor v.
Proof.
  intros H0 H1. unfold Capture.to_unsigned_long.
  assert (Hn : 0 <= Qnum v) by (unfold Qle in H0; cbn in H0; lia).
  rewrite Z.quot_div_nonneg by lia.
  assert (E : Qnum v / Z.pos (Qden v) = Qfloor v) by now destruct v.
  rewrite E. apply Z.mod_small. split.
  - rewrite <- E. apply Z.div_pos; lia.
  - pose proof (Qfloor_le v) as Hf.
    assert (H : (inject_Z (Qfloor v) < inject_Z 4294967296)%Q)
      by (eapply Qle_lt_trans; eauto).
    rewrite <- Zlt_Qlt in H. exact H.
Qed.

(** The scaled side: [a * (1024 / b)] in doubles, for a side [a] that is
    at most the longer side [b]. *)
Lemma scaled_side (a b : Z) :
  0 < a <= b -> 1024 < b < 2 ^ 32 ->
  let v := Double.mul (inject_Z a) (Double.div 1024 (inject_Z b)) in
  (inject_Z a * 1024 * (1 - Double.u) * (1 - Double.u) <= v * inject_Z b
   /\ v * inject_Z b <= inject_Z a * 1024 * (1 + Double.u) * (1 + Double.u))%Q
  /\ (0 < v)%Q.
Proof.
  intros Ha Hb v.
  assert (HB : (0 < inject_Z b)%Q)
    by (change 0%Q with (inject_Z 0); rewrite <- Zlt_Qlt; lia).
  assert (HA : (0 < inject_Z a)%Q) by (change 0%Q with (inject_Z 0); rewrite <- Zlt_Qlt; lia).
  assert (HAB : (inject_Z a <= inject_Z b)%Q) by (rewrite <- Zle_Qle; lia).
  assert (HB1 : (1024 < inject_Z b)%Q) by (change 1024%Q with (inject_Z 1024); rewrite <- Zlt_Qlt; lia).
  set (x1 := (1024 / inject_Z b)%Q).
  assert (Hx1 : (x1 * inject_Z b == 1024)%Q) by (unfold x1; field; lra).
  assert (Hx1p : (0 < x1)%Q) by nra.
  assert (Hx1lt : (x1 < 1)%Q) by nra.
  destruct (round_bounds x1 Hx1p ltac:(lra)) as [Hq1 Hq2].
  set (q := Double.div 1024 (inject_Z b)) in *.
  change (Double.round x1) with q in Hq1, Hq2.
  unfold Double.u in *.
  assert (Hqp : (0 < q)%Q) by lra.
  assert (Hq2' : (q <= 1 + (1 # 9007199254740992))%Q) by lra.
  set (p := (inject_Z a * q)%Q).
  assert (Hpp : (0 < p)%Q) by (unfold p; nra).
  assert (HBu : (inject_Z b < 4294967296)%Q)
    by (change 4294967296%Q with (inject_Z (2 ^ 32)); rewrite <- Zlt_Qlt; lia).
  assert (Hplt : (p < 4503599627370496)%Q) by (unfold p; nra).
  destruct (round_bounds p Hpp Hplt) as [Hv1 Hv2].
  unfold p, Double.u in *. change (Double.round (inject_Z a * q)) with v in Hv1, Hv2.
  assert (HqB1 : (1024 * (1 - (1 # 9007199254740992)) <= q * inject_Z b)%Q) by nra.
  assert (HqB2 : (q * inject_Z b <= 1024 * (1 + (1 # 9007199254740992)))%Q) by nra.
  unfold p in *.
  pose proof (Qmult_le_compat_r _ _ (inject_Z b) Hv1 ltac:(lra)) as L1.
  pose proof (Qmult_le_compat_r _ _ (inject_Z b) Hv2 ltac:(lra)) as L2.
  pose proof (Qmult_le_compat_r _ _
                (inject_Z a * (1 - (1 # 9007199254740992))) HqB1 ltac:(nra))
    as L3.
  pose proof (Qmult_le_compat_r _ _
                (inject_Z a * (1 + (1 # 9007199254740992))) HqB2 ltac:(nra))
    as L4.
  repeat split; lra.
Qed.

(** ... and truncated: within one pixel below the exact quotient. *)
Lemma canvas_side (a b : Z) :
  0 < a <= b -> 1024 < b < 2 ^ 32 ->
  let t := Capture.to_unsigned_long
             (Double.mul (inject_Z a) (Double.div 1024 (inject_Z b))) in
  a * 1024 - b <= t * b <= a * 1024.
Proof.
  intros Ha Hb. destruct (scaled_side a b Ha Hb) as [[Hlo Hhi] Hpos].
  set (v := Double.mul (inject_Z a) (Double.div 1024 (inject_Z b))) in *.
  cbv zeta.
  assert (HB : (0 < inject_Z b)%Q)
    by (change 0%Q with (inject_Z 0); rewrite <- Zlt_Qlt; lia).
  assert (HA : (0 < inject_Z a)%Q)
    by (change 0%Q with (inject_Z 0); rewrite <- Zlt_Qlt; lia).
  assert (HAB : (inject_Z a <= inject_Z b)%Q) by (rewrite <- Zle_Qle; lia).
  assert (HBu : (inject_Z b < 4294967296)%Q)
    by (change 4294967296%Q with (inject_Z (2 ^ 32)); rewrite <- Zlt_Qlt; lia).
  assert (HB1 : (1024 < inject_Z b)%Q)
    by (change 1024%Q with (inject_Z 1024); rewrite <- Zlt_Qlt; lia).
  unfold Double.u in *.
  assert (Hv : (v < 4294967296)%Q).
  { apply Qnot_le_lt. intros C.
    pose proof (Qmult_le_compat_r _ _ (inject_Z b) C ltac:(lra)). lra. }
  rewrite (to_unsigned_long_floor v) by lra.
  pose proof (Qfloor_le v) as F1. pose proof (Qlt_floor v) as F2.
  set (t := Qfloor v) in *.
  rewrite inject_Z_plus in F2. change (inject_Z 1) with 1%Q in F2.
  pose proof (Qmult_le_compat_r _ _ (inject_Z b) F1 ltac:(lra)) as G1.
  pose proof (Qmult_lt_compat_r _ _ (inject_Z b) HB F2) as G2.
  split.
  - assert (H : (inject_Z (a * 1024 - b) < inject_Z (t * b) + 1)%Q).
    { unfold Z.sub. rewrite !inject_Z_plus, !inject_Z_mult, inject_Z_opp.
      change (inject_Z 1024) with 1024%Q. lra. }
    change 1%Q with (inject_Z 1) in H.
    rewrite <- inject_Z_plus, <- Zlt_Qlt in H. lia.
  - assert (H : (inject_Z (t * b) < inject_Z (a * 1024) + 1)%Q).
    { rewrite !inject_Z_mult. change (inject_Z 1024) with 1024%Q. lra. }
    change 1%Q with (inject_Z 1) in H.
    rewrite <- inject_Z_plus, <- Zlt_Qlt in H. lia.
Qed.

(** On the samples, [Double] computes what binary64 computes. *)
Lemma double_agrees_with_binary64 :
  forallb (fun '(a, b) => Binary64.agrees a b) Binary64.samples = true
  /\ Binary64.agrees_below 1280 = true
  /\ Binary64.agrees_below 1920 = true.
Proof. split; [|split]; vm_compute; reflexivity. Qed.

(** The two [if]s of [captureImage], on integers. *)
Lemma scale_cases (w h : Z) :
  Capture.scale w h =
  if h <? w then
    if 1024 <? w
    then (Capture.maxDim,
          Double.mul (inject_Z h) (Double.div Capture.maxDim (inject_Z w)))
    else (inject_Z w, inject_Z h)
  else
    if 1024 <? h
    then (Double.mul (inject_Z w) (Double.div Capture.maxDim (inject_Z h)),
          Capture.maxDim)
    else (inject_Z w, inject_Z h).
Proof.
  unfold Capture.scale. now rewrite Qgt_bool_inject, !Qgt_bool_maxDim.
Qed.


(** ** The properties of the specification *)


(** C10. The dark-mode flag survives a round trip through the storage:
    what the effect stores for [b] initialises the flag to [b] again; with
    no stored value the flag starts false, and a stored string starts it
    true only when it is exactly [true]. *)
Theorem darkMode_round_trip (s : App) (ls : gmap string string) (v : string) :
  loadDarkMode (localStorage (env (darkModeEffect s))) = darkMode (ui s)
  /\ localStorage (env (darkModeEffect s)) !! "darkMode"
     = Some (String_of_bool (darkMode (ui s)))
  /\ loadDarkMode (delete "darkMode" ls) = false
  /\ loadDarkMode (<["darkMode" := v]> ls) = bool_decide (v = "true").
Proof.
  unfold loadDarkMode, darkModeEffect. cbn.
  rewrite !lookup_insert_eq, lookup_delete_eq.
  repeat split.
  - now destruct (darkMode (ui s)).
  - destruct (String.eqb_spec v "true") as [E|E].
    + now rewrite bool_decide_eq_true_2.
    + now rewrite bool_decide_eq_false_2.
Qed.


(** The scaling, on the canvas and before the truncation. *)
Lemma scaling_cases (w h : Z) :
  0 < w < 2 ^ 32 -> 0 < h < 2 ^ 32 ->
  (Z.max w h <= 1024
   /\ Capture.scale w h = (inject_Z w, inject_Z h)
   /\ Capture.canvas_size w h = (w, h))
  \/ (h < w /\ 1024 < w
      /\ Capture.scale w h
         = (1024%Q,
            Double.mul (inject_Z h) (Double.div 1024 (inject_Z w)))
      /\ fst (Capture.canvas_size w h) = 1024
      /\ h * 1024 - w <= snd (Capture.canvas_size w h) * w <= h * 1024)
  \/ (w <= h /\ 1024 < h
      /\ Capture.scale w h
         = (Double.mul (inject_Z w) (Double.div 1024 (inject_Z h)),
            1024%Q)
      /\ snd (Capture.canvas_size w h) = 1024
      /\ w * 1024 - h <= fst (Capture.canvas_size w h) * h <= w * 1024).
Proof.
  intros Hw Hh. unfold Capture.canvas_size. rewrite scale_cases.
  destruct (Z.ltb_spec h w), (Z.ltb_spec 1024 w), (Z.ltb_spec 1024 h);
    try lia.
  all: try (left; rewrite !to_unsigned_long_inject by lia;
            repeat split; lia).
  all: try (right; left; repeat split; try lia; try reflexivity;
            apply (canvas_side h w); lia).
  all: right; right; repeat split; try lia; try reflexivity;
       apply (canvas_side w h); lia.
Qed.

(** C2. For a frame of [w] by [h] pixels (both positive, as an
    [unsigned long] holds them) the canvas is at most 1024 on its longer
    side, is the frame's size when the frame is at most 1024 on its
    longer side, and keeps the aspect ratio within rounding: to one pixel
    on the canvas, and to the rounding of the two floating-point
    operations before the sizes are truncated. *)
Theorem capture_scaling (w h : Z) :
  0 < w < 2 ^ 32 -> 0 < h < 2 ^ 32 ->
  Z.max (fst (Capture.canvas_size w h)) (snd (Capture.canvas_size w h)) <= 1024
  /\ (Z.max w h <= 1024 -> Capture.canvas_size w h = (w, h))
  /\ Z.abs (fst (Capture.canvas_size w h) * h
            - snd (Capture.canvas_size w h) * w) <= Z.max w h
  /\ (Qabs (fst (Capture.scale w h) * inject_Z h
            - snd (Capture.scale w h) * inject_Z w)
      <= inject_Z (Z.min w h) * (3 # 8796093022208))%Q.
Proof.
  intros Hw Hh.
  assert (HW : (0 < inject_Z w)%Q)
    by (change 0%Q with (inject_Z 0); rewrite <- Zlt_Qlt; lia).
  assert (HH : (0 < inject_Z h)%Q)
    by (change 0%Q with (inject_Z 0); rewrite <- Zlt_Qlt; lia).
  destruct (scaling_cases w h Hw Hh)
    as [(Hm & Es & Ec) | [(Hlt & Hb & Es & E1 & E2) | (Hle & Hb & Es & E1 & E2)]].
  - rewrite Es, Ec. cbn [fst snd]. repeat split; try lia.
    apply Qabs_Qle_condition.
    assert (0 <= inject_Z (Z.min w h))%Q
      by (change 0%Q with (inject_Z 0); rewrite <- Zle_Qle; lia).
    split; lra.
  - rewrite Es. cbn [fst snd]. rewrite E1.
    destruct (scaled_side h w ltac:(lia) ltac:(lia)) as [[L1 L2] _].
    repeat split; try nia.
    rewrite Z.min_r by lia. unfold Double.u in *.
    apply Qabs_Qle_condition. split; lra.
  - rewrite Es. cbn [fst snd]. rewrite E1.
    destruct (scaled_side w h ltac:(lia) ltac:(lia)) as [[L1 L2] _].
    repeat split; try nia.
    rewrite Z.min_l by lia. unfold Double.u in *.
    apply Qabs_Qle_condition. split; lra.
Qed.

Lemma capture_scaling_witness :
  Capture.canvas_size 4032 3024 = (1024, 768)
  /\ Capture.canvas_size 1288 644 = (1024, 511)
  /\ Z.max (fst (Capture.canvas_size 1288 644))
           (snd (Capture.canvas_size 1288 644)) <= 1024
  /\ Capture.canvas_size 640 480 = (640, 480).
Proof.
  split; [vm_compute; reflexivity|].
  split; [vm_compute; reflexivity|].
  split.
  - apply (capture_scaling 1288 644); lia.
  - apply (capture_scaling 640 480); lia.
Defined.

(** A render with nothing changed changes nothing. *)
Lemma run_effects_same (s : App) : run_effects (ui s) s = s.
Proof.
  unfold run_effects. rewrite eqb_reflx. cbv beta iota zeta.
  rewrite String.eqb_refl. cbv beta iota zeta.
  now rewrite Z.eqb_refl.
Qed.

Lemma videoRendered_off (u : ReactState) :
  cameraActive u = false -> videoRendered u = false.
Proof.
  intros H. unfold videoRendered, calorieView. rewrite H.
  destruct (activeTab u), (truthy_image u); reflexivity.
Qed.

Lemma video_run_effects (old : ReactState) (s : App) :
  video (env (run_effects old s)) = video (env s).
Proof. unfold run_effects. repeat case_if; reflexivity. Qed.

(** The video element after a step. *)
Lemma video_step (s : App) (e : event) :
  video (env (step s e)) =
  if videoRendered (ui (handle e s)) then
    match video (env (handle e s)) with
    | Some v => Some v
    | None => Some None
    end
  else None.
Proof.
  unfold step, commit. rewrite video_run_effects. unfold attach_refs.
  destruct (videoRendered (ui (handle e s))); [|reflexivity].
  destruct (video (env (handle e s))) eqn:E; [exact E | reflexivity].
Qed.

(** With the camera off and no video element, Stop changes nothing. *)
Lemma step_stop_again (r : App) :
  cameraActive (ui r) = false -> video (env r) = None ->
  step r ClickStopCamera = r.
Proof.
  intros Hc Hv.
  assert (Hh : handle ClickStopCamera r = r).
  { unfold handle, stopCamera. rewrite Hv.
    destruct r as [[] ?]. simpl in Hc. subst. reflexivity. }
  unfold step, commit. rewrite Hh.
  assert (Ha : attach_refs r = r).
  { unfold attach_refs. rewrite (videoRendered_off _ Hc).
    destruct r as [? []]. simpl in Hv. subst. reflexivity. }
  rewrite Ha. apply run_effects_same.
Qed.

(** What [stopCamera] does to the browser. *)
Lemma stopCamera_env (s : App) :
  video (env (stopCamera s))
    = match video (env s) with Some _ => Some None | None => None end
  /\ liveTracks (env (stopCamera s))
     = liveTracks (env s) ∖ list_to_set (attached_tracks s)
  /\ cameraActive (ui (stopCamera s)) = false.
Proof.
  unfold stopCamera, attached_tracks.
  destruct s as [u [[[stream|]|] ? ? ? ? ? ? ? ?]]; cbn; repeat split;
    rewrite ?list_to_set_nil, ?difference_empty_L; reflexivity.
Qed.

(** C9. [stopCamera] is idempotent: a second call changes nothing, as a
    handler and as a click; after a call the video element holds no
    stream and the tracks of the stream it held are no longer live; with
    no stream held, the call leaves the browser as it is. *)
Theorem stopCamera_idempotent (s : App) :
  stopCamera (stopCamera s) = stopCamera s
  /\ step (step s ClickStopCamera) ClickStopCamera = step s ClickStopCamera
  /\ detached (stopCamera s)
  /\ (forall t, t ∈ attached_tracks s -> t ∉ liveTracks (env (stopCamera s)))
  /\ (detached s -> env (stopCamera s) = env s).
Proof.
  repeat split.
  - unfold stopCamera. destruct s as [u [[[?|]|] ? ? ? ? ? ? ? ?]]; reflexivity.
  - apply step_stop_again.
    + now rewrite ui_step, ui_stopCamera.
    + rewrite video_step, videoRendered_off; [reflexivity|].
      now rewrite ui_stopCamera.
  - unfold detached. destruct (stopCamera_env s) as (-> & _).
    now destruct (video (env s)).
  - intros t Ht. destruct (stopCamera_env s) as (_ & -> & _).
    rewrite elem_of_difference, elem_of_list_to_set. tauto.
  - unfold detached, stopCamera. destruct s as [u [[[?|]|] ? ? ? ? ? ? ? ?]];
      cbn; intuition.
Qed.

Lemma stopCamera_idempotent_witness :
  attached_tracks filming = [7%nat; 8%nat]
  /\ (7%nat ∉ liveTracks (env (stopCamera filming)))
  /\ env (stopCamera (stopCamera filming)) = env (stopCamera filming).
Proof.
  split; [vm_compute; reflexivity|]. split.
  - apply (proj1 (proj2 (proj2 (proj2 (stopCamera_idempotent filming))))).
    vm_compute. set_solver.
  - apply (proj2 (proj2 (proj2 (proj2
             (stopCamera_idempotent (stopCamera filming)))))).
    apply (stopCamera_idempotent filming).
Defined.

(** A capture that gets its drawing context releases the camera: the
    video element holds no stream and the stream's tracks are ended. *)
Lemma captureImage_releases (w h : Z) (url : string) (s : App) :
  video (env s) <> None ->
  let s' := captureImage w h true url s in
  detached s'
  /\ liveTracks (env s') = liveTracks (env s) ∖ list_to_set (attached_tracks s)
  /\ cameraActive (ui s') = false
  /\ image (ui s') = Some url.
Proof.
  intros Hv. unfold captureImage, stopCamera, detached, attached_tracks.
  destruct s as [u [[[stream|]|] ? ? ? ? ? ? ? ?]]; cbn in *;
    [| |congruence]; repeat split;
    rewrite ?list_to_set_nil, ?difference_empty_L; reflexivity.
Qed.

(** C4. Leaving the camera view through the tab bar (or the header's
    Reset) goes through [reset], which lowers [cameraActive] and stops no
    track: after Open Camera, a granted stream with track 7 and a click
    on the Workout tab, the camera view is gone, the video element is
    unmounted, and track 7 is still live.  Left through Cancel, which
    calls [stopCamera], the same session ends with the track stopped; and
    a stream that arrives after Cancel is attached to nothing and stays
    live. *)
Theorem tab_switch_leaves_track_live :
  session ∅ day1 walk_away = Some walked_away
  /\ reachable walked_away
  /\ cameraActive (ui walked_away) = false
  /\ video (env walked_away) = None
  /\ 7%nat ∈ liveTracks (env walked_away)
  /\ (7%nat ∉ liveTracks (env cancelled))
  /\ (video (env late_stream) = None /\ 7%nat ∈ liveTracks (env late_stream)).
Proof.
  split; [vm_compute; reflexivity|].
  split; [|split; [|split; [|split; [|split; [|split]]]]].
  - apply (session_reachable ∅ day1 walk_away
             (default blank (mount ∅ day1)) walked_away).
    + vm_compute; reflexivity.
    + vm_compute; repeat split.
    + unfold walked_away; reflexivity.
  - vm_compute; reflexivity.
  - vm_compute; reflexivity.
  - vm_compute. set_solver.
  - vm_compute. set_solver.
  - vm_compute; reflexivity.
  - vm_compute. set_solver.
Qed.




Lemma truthy_parsed (stored : string) (v : jsval) :
  JSON_parse stored = Some v -> truthy_string stored = true.
Proof. destruct stored; [discriminate | reflexivity]. Qed.

(** C8 (amended). [loadConsumedCalories] is a total function of the
    storage and the day: it gives 0 when there is no entry, when the entry
    is not JSON, and when the parsed value holds no [date] equal to
    today's key (a stale record, [null], a value that is not an object);
    when the [date] is today's, it gives the stored [calories] as they
    are, a number or not.  The goal string defaults to 2000 when it is
    absent or empty, and a goal string that is not a number makes the
    goal 0. *)
Theorem load_defaults (ls : gmap string string) (todayKey : string) :
  (ls !! "calorieLog" = None -> loadConsumedCalories ls todayKey = JNum 0)
  /\ (forall stored, ls !! "calorieLog" = Some stored ->
        JSON_parse stored = None ->
        loadConsumedCalories ls todayKey = JNum 0)
  /\ (forall stored v, ls !! "calorieLog" = Some stored ->
        JSON_parse stored = Some v ->
        get_prop v "date" <> Some (JStr todayKey) ->
        loadConsumedCalories ls todayKey = JNum 0)
  /\ (forall stored v, ls !! "calorieLog" = Some stored ->
        JSON_parse stored = Some v ->
        get_prop v "date" = Some (JStr todayKey) ->
        Some (loadConsumedCalories ls todayKey) = get_prop v "calories")
  /\ (ls !! "dailyCalorieGoal" = None \/ ls !! "dailyCalorieGoal" = Some ""
      -> loadGoalStr ls = "2000")
  /\ (forall g c, ls !! "dailyCalorieGoal" = Some g -> g <> "" ->
        parseInt g = None ->
        dailyCalorieGoal (initial_ui ls c) = 0).
Proof.
  unfold loadConsumedCalories, load_try. repeat split.
  - now intros ->.
  - intros stored -> Hp. rewrite Hp. now destruct (truthy_string stored).
  - intros stored v -> Hp Hd. rewrite Hp, (truthy_parsed _ _ Hp).
    destruct (get_prop v "date") as [date|] eqn:Ed;
      destruct (get_prop v "calories") as [calories|]; try reflexivity.
    destruct date; try reflexivity. cbn.
    destruct (String.eqb_spec s todayKey); [congruence|reflexivity].
  - intros stored v -> Hp Hd. rewrite Hp, (truthy_parsed _ _ Hp), Hd.
    destruct v; try discriminate Hd; cbn; now rewrite ?String.eqb_refl.
  - unfold loadGoalStr. now intros [-> | ->].
  - intros g c Hg Hne Hp. unfold dailyCalorieGoal, initial_ui, loadGoalStr.
    cbn. rewrite Hg. unfold truthy_string.
    destruct (String.eqb_spec g ""); [congruence|]. cbn. now rewrite Hp.
Qed.

Lemma load_defaults_witness :
  loadConsumedCalories (<["calorieLog" := JSON_stringify_log day1 500]> ∅) day2
    = JNum 0
  /\ Some (loadConsumedCalories odd_store day1) = Some (JStr "abc")
  /\ dailyCalorieGoal (initial_ui odd_store 0) = 0.
Proof.
  split; [|split].
  - apply (proj1 (proj2 (proj2
      (load_defaults (<["calorieLog" := JSON_stringify_log day1 500]> ∅) day2)))
      (JSON_stringify_log day1 500)
      (JObj [("date", JStr day1); ("calories", JNum 500)]));
      [vm_compute; reflexivity | vm_compute; reflexivity | discriminate].
  - apply (proj1 (proj2 (proj2 (proj2 (load_defaults odd_store day1))))
      odd_log
      (JObj [("date", JStr day1); ("calories", JStr "abc")]));
      vm_compute; reflexivity.
  - apply (proj2 (proj2 (proj2 (proj2 (proj2 (load_defaults odd_store day1)))))
             "abc" 0); [vm_compute; reflexivity | discriminate | reflexivity].
Defined.

(** C8, as stated, fails: a record of today whose [calories] is the
    string [abc] is not well formed, and is read as that string. *)
Lemma malformed_calories_returned : ~ malformed_reads_zero.
Proof.
  intros H. specialize (H odd_store day1 odd_log).
  assert (E : loadConsumedCalories odd_store day1 = JStr "abc")
    by (vm_compute; reflexivity).
  rewrite E in H. enough (JStr "abc" = JNum 0) by discriminate.
  apply H; [vm_compute; reflexivity|].
  intros (v & d & c & Hp & _ & Hc & _).
  assert (Ev : JSON_parse odd_log
               = Some (JObj [("date", JStr day1); ("calories", JStr "abc")]))
    by (vm_compute; reflexivity).
  rewrite Ev in Hp. injection Hp as <-. discriminate Hc.
Qed.




(** C6. From any state whose total is the one stored (every reachable
    state is one, [reachable_ledger_stored]), Reset Day makes
    the total 0 and a reload on the same day reads 0 back; if then,
    after events that touch neither the ledger nor the clock, an analysis
    of 150 is logged, the total is 150 and a reload reads 150. *)
Theorem reset_day_then_log (s : App) (es : list event) :
  ledger_stored s ->
  let s1 := step s ClickResetDay in
  consumedCalories (ui s1) = 0
  /\ loadConsumedCalories (localStorage (env s1)) (today (env s1)) = JNum 0
  /\ (Forall (fun e => ledger_event e = false) es ->
      analysis (ui (run s1 es)) = Some {| totalCalories := 150 |} ->
      mealLogged (ui (run s1 es)) = false ->
      let s2 := step (run s1 es) ClickLogMeal in
      consumedCalories (ui s2) = 150
      /\ loadConsumedCalories (localStorage (env s2)) (today (env s2))
         = JNum 150).
Proof.
  intros [d Hs] s1.
  assert (Hc : consumedCalories (ui s1) = 0) by (unfold s1; now rewrite ui_step).
  assert (Ht : today (env s1) = today (env s)) by (unfold s1; now rewrite today_step).
  assert (Hcell : exists d', localStorage (env s1) !! "calorieLog"
                             = Some (JSON_stringify_log d' 0)).
  { unfold s1. rewrite calorieLog_step. cbn [handle].
    change (consumedCalories (ui (setConsumedCalories (fun _ => 0) s))) with 0.
    destruct (Z.eqb_spec (consumedCalories (ui s)) 0) as [E|_]; eauto.
    rewrite Hs, E. eauto. }
  split; [exact Hc|]. split.
  - destruct Hcell as [d' Hd']. rewrite (load_stringify_log _ _ _ _ Hd').
    now destruct (String.eqb d' (today (env s1))).
  - intros Hq Ha Hm s2.
    destruct (quiet_run es s1 Hq) as (Qc & Qt & Qs).
    destruct (log_step (run s1 es) _ Ha Hm) as (Lc & _ & Lt & Ls).
    fold s2 in Lc, Lt, Ls. cbn [totalCalories] in Lc, Ls.
    rewrite Qc, Hc in Lc, Ls. cbn in Lc, Ls.
    split; [exact Lc|].
    rewrite (load_stringify_log _ _ (today (env s2)) _ Ls), Lt.
    now rewrite String.eqb_refl.
Qed.

Lemma reset_day_then_log_witness :
  consumedCalories (ui fed) = 600
  /\ consumedCalories (ui (step fed ClickResetDay)) = 0
  /\ consumedCalories
       (ui (step (run (step fed ClickResetDay) (analysed photo 150))
              ClickLogMeal)) = 150.
Proof.
  assert (Hs : ledger_stored fed).
  { apply reachable_ledger_stored.
    apply (session_reachable ∅ day1 (meal photo 600)
             (default blank (mount ∅ day1)) fed).
    - vm_compute; reflexivity.
    - vm_compute; repeat split.
    - unfold fed; reflexivity. }
  destruct (reset_day_then_log fed (analysed photo 150) Hs) as (H0 & _ & H).
  split; [vm_compute; reflexivity|]. split; [exact H0|].
  apply H.
  - repeat constructor.
  - vm_compute; reflexivity.
  - vm_compute; reflexivity.
Defined.

(** C7. Within a day (the stored record is today's), logging an
    analysis adds its calories to the total, takes them off the
    remaining calories, and a reload reads the sum.  From an empty ledger
    with goal 2000, meals of 600 and 900 give a total of 1500 (read back
    as 1500) and 500 remaining; a further meal of 700 gives 2200 and
    -200. *)
Theorem meals_accumulate (s : App) (a : NutritionAnalysis) :
  localStorage (env s) !! "calorieLog"
    = Some (JSON_stringify_log (today (env s)) (consumedCalories (ui s))) ->
  analysis (ui s) = Some a ->
  mealLogged (ui s) = false ->
  let s' := step s ClickLogMeal in
  (consumedCalories (ui s') = consumedCalories (ui s) + totalCalories a
   /\ remainingCalories (ui s') = remainingCalories (ui s) - totalCalories a
   /\ loadConsumedCalories (localStorage (env s')) (today (env s'))
      = JNum (consumedCalories (ui s) + totalCalories a))
  /\ (let s2 := run start (meal photo 600 ++ meal photo 900) in
      let s3 := run s2 (meal photo 700) in
      mount goal_store day1 = Some start
      /\ consumedCalories (ui start) = 0
      /\ dailyCalorieGoal (ui start) = 2000
      /\ consumedCalories (ui s2) = 1500
      /\ loadConsumedCalories (localStorage (env s2)) (today (env s2))
         = JNum 1500
      /\ remainingCalories (ui s2) = 500
      /\ consumedCalories (ui s3) = 2200
      /\ loadConsumedCalories (localStorage (env s3)) (today (env s3))
         = JNum 2200
      /\ remainingCalories (ui s3) = -200).
Proof.
  intros Hs Ha Hm s'. split.
  - destruct (log_step s a Ha Hm) as (Lc & _ & Lt & Ls). fold s' in Lc, Lt, Ls.
    split; [exact Lc|]. split.
    + unfold remainingCalories, dailyCalorieGoal. rewrite Lc.
      unfold s'. rewrite ui_step. cbn [handle]. unfold handleLogMeal.
      rewrite Ha, Hm. cbn. lia.
    + assert (Hcell : localStorage (env s') !! "calorieLog"
                = Some (JSON_stringify_log (today (env s))
                          (consumedCalories (ui s) + totalCalories a))).
      { rewrite Ls. destruct (Z.eqb_spec (totalCalories a) 0) as [E|_];
          [now rewrite Hs, E, Z.add_0_r | reflexivity]. }
      rewrite (load_stringify_log _ _ _ _ Hcell), Lt.
      now rewrite String.eqb_refl.
  - (vm_compute; repeat split).
Qed.

Lemma meals_accumulate_witness :
  consumedCalories (ui (step second_meal ClickLogMeal)) = 1500.
Proof.
  assert (E : consumedCalories (ui second_meal)
              + totalCalories {| totalCalories := 900 |} = 1500)
    by (vm_compute; reflexivity).
  rewrite <- E.
  refine (proj1 (proj1 (meals_accumulate second_meal
                          {| totalCalories := 900 |} _ _ _)));
    vm_compute; reflexivity.
Defined.

(** ** Further properties: what is stored, and what a reload restores *)

Lemma htmlDark_handle (s : App) (e : event) :
  htmlDark (env (handle e s)) = htmlDark (env s).
Proof.
  split_state s; destruct e; cbn;
    unfold startCamera_resolved, stopCamera, captureImage, handleFileUpload,
      handleAnalyze, handleLogMeal; cbn; repeat case_if; reflexivity.
Qed.

Lemma eqb_bool_eq (a b : bool) : Bool.eqb a b = true -> a = b.
Proof. now destruct a, b. Qed.

Lemma commit_in_sync (old : ReactState) (s : App) :
  localStorage (env s) !! "dailyCalorieGoal" = Some (dailyCalorieGoalStr old) ->
  localStorage (env s) !! "darkMode" = Some (String_of_bool (darkMode old)) ->
  htmlDark (env s) = darkMode old ->
  let s' := commit old s in
  localStorage (env s') !! "dailyCalorieGoal" = Some (dailyCalorieGoalStr (ui s'))
  /\ localStorage (env s') !! "darkMode" = Some (String_of_bool (darkMode (ui s')))
  /\ htmlDark (env s') = darkMode (ui s')
  /\ present (video (env s')) = videoRendered (ui s').
Proof.
  intros Hg Hd Hh s'. unfold s'.
  unfold commit. rewrite ui_run_effects, ui_attach_refs, video_run_effects.
  assert (A : localStorage (env (attach_refs s)) = localStorage (env s)
              /\ htmlDark (env (attach_refs s)) = htmlDark (env s)).
  { unfold attach_refs. repeat case_if; split; reflexivity. }
  destruct A as [A1 A2].
  assert (V : present (video (env (attach_refs s))) = videoRendered (ui s)).
  { unfold attach_refs. destruct (videoRendered (ui s)); [|reflexivity].
    destruct (video (env s)) eqn:E; [now rewrite E | reflexivity]. }
  pose proof (ui_attach_refs s) as A3.
  destruct (attach_refs s) as [u' b']. cbn in A1, A2, A3, V. subst u'.
  unfold run_effects. cbn. repeat case_if; cbn in *; unfold getTodayKey;
    repeat match goal with
    | H : Bool.eqb _ _ = true |- _ => apply eqb_bool_eq in H
    | H : String.eqb _ _ = true |- _ => apply String.eqb_eq in H
    end;
    rewrite ?lookup_insert_eq;
    rewrite ?lookup_insert_ne by discriminate;
    rewrite ?lookup_insert_eq;
    rewrite ?lookup_insert_ne by discriminate;
    rewrite ?lookup_insert_eq, ?A1, ?A2; repeat split; congruence.
Qed.

Lemma mount_in_sync (ls : gmap string string) (d : string) (s : App) :
  mount ls d = Some s -> in_sync s.
Proof.
  intros Hm. split; [apply reachable_ledger_stored; eapply reachable_mount; eauto|].
  unfold mount in Hm. destruct (loadConsumedCalories ls d); try discriminate.
  injection Hm as <-. cbn.
  rewrite lookup_insert_ne by discriminate. rewrite lookup_insert_eq.
  rewrite !lookup_insert_ne by discriminate. rewrite lookup_insert_eq.
  repeat split.
Qed.

Lemma reachable_in_sync (s : App) : reachable s -> in_sync s.
Proof.
  induction 1 as [ls d s Hm | s e Hs IH He].
  - eapply mount_in_sync; eauto.
  - split; [apply reachable_ledger_stored; now apply reachable_step|].
    destruct IH as (_ & Hg & Hd & Hh & _).
    apply (commit_in_sync (ui s) (handle e s)).
    + now rewrite localStorage_handle.
    + now rewrite localStorage_handle.
    + now rewrite htmlDark_handle.
Qed.

Lemma reachable_first_render : reachable (default blank (mount ∅ day1)).
Proof. apply (reachable_mount ∅ day1). vm_compute; reflexivity. Qed.

Lemma reachable_tuned : reachable tuned.
Proof.
  apply (session_reachable ∅ day1 [ToggleDark; GoalInput "1800"]
           (default blank (mount ∅ day1)) tuned).
  - vm_compute; reflexivity.
  - vm_compute; repeat split.
  - unfold tuned; reflexivity.
Qed.

Lemma reachable_fed : reachable fed.
Proof.
  apply (session_reachable ∅ day1 (meal photo 600)
           (default blank (mount ∅ day1)) fed).
  - vm_compute; reflexivity.
  - vm_compute; repeat split.
  - unfold fed; reflexivity.
Qed.


Lemma reachable_awaiting_camera : reachable awaiting_camera.
Proof.
  apply (session_reachable ∅ day1 [ClickOpenCamera]
           (default blank (mount ∅ day1)) awaiting_camera).
  - vm_compute; reflexivity.
  - vm_compute; repeat split.
  - unfold awaiting_camera; reflexivity.
Qed.

(** X1. In every reachable state the storage holds the state: the
    ledger record is the total (under the day of its last write), the
    goal entry is the goal field as typed, the dark-mode entry is
    [String(darkMode)]; the document's [dark] class is the flag, and the
    video ref is set exactly when the camera view is rendered. *)
Theorem state_is_persisted (s : App) :
  reachable s ->
  (exists d, localStorage (env s) !! "calorieLog"
             = Some (JSON_stringify_log d (consumedCalories (ui s))))
  /\ localStorage (env s) !! "dailyCalorieGoal"
     = Some (dailyCalorieGoalStr (ui s))
  /\ localStorage (env s) !! "darkMode"
     = Some (String_of_bool (darkMode (ui s)))
  /\ htmlDark (env s) = darkMode (ui s)
  /\ present (video (env s)) = videoRendered (ui s).
Proof.
  intros Hr. destruct (reachable_in_sync s Hr) as (Hl & Hg & Hd & Hh & Hv).
  split; [exact Hl|]. split; [exact Hg|]. split; [exact Hd|].
  split; [exact Hh | exact Hv].
Qed.

Lemma state_is_persisted_witness :
  (exists d, localStorage (env tuned) !! "calorieLog"
             = Some (JSON_stringify_log d (consumedCalories (ui tuned))))
  /\ localStorage (env tuned) !! "dailyCalorieGoal"
     = Some (dailyCalorieGoalStr (ui tuned))
  /\ localStorage (env tuned) !! "darkMode"
     = Some (String_of_bool (darkMode (ui tuned)))
  /\ htmlDark (env tuned) = darkMode (ui tuned)
  /\ present (video (env tuned)) = videoRendered (ui tuned).
Proof. exact (state_is_persisted tuned reachable_tuned). Defined.

(** X2. A reload restores the state: from the storage of any reachable
    state the first render succeeds on any day; it restores the total
    when the day is the one the record was written on and starts from 0
    otherwise, restores the dark-mode flag, and restores the goal field,
    except that an emptied field comes back as 2000. *)
Theorem reload_restores_state (s : App) (d' : string) :
  reachable s ->
  exists (d : string) (s0 : App),
    localStorage (env s) !! "calorieLog"
      = Some (JSON_stringify_log d (consumedCalories (ui s)))
    /\ mount (localStorage (env s)) d' = Some s0
    /\ consumedCalories (ui s0)
       = (if String.eqb d d' then consumedCalories (ui s) else 0)
    /\ darkMode (ui s0) = darkMode (ui s)
    /\ dailyCalorieGoalStr (ui s0)
       = (if String.eqb (dailyCalorieGoalStr (ui s)) "" then "2000"
          else dailyCalorieGoalStr (ui s)).
Proof.
  intros Hr. destruct (reachable_in_sync s Hr) as ([d Hl] & Hg & Hd & _).
  exists d. unfold mount. rewrite (load_stringify_log _ _ d' _ Hl).
  destruct (String.eqb d d'); eexists; (split; [exact Hl|]);
    (split; [reflexivity|]); cbn; unfold loadDarkMode, loadGoalStr, truthy_string;
    rewrite Hg, Hd; repeat split;
    try (now destruct (darkMode (ui s)));
    now destruct (String.eqb (dailyCalorieGoalStr (ui s)) "").
Qed.

Lemma reload_restores_state_witness :
  exists (d : string) (s0 : App),
    localStorage (env fed) !! "calorieLog"
      = Some (JSON_stringify_log d (consumedCalories (ui fed)))
    /\ mount (localStorage (env fed)) day1 = Some s0
    /\ consumedCalories (ui s0)
       = (if String.eqb d day1 then consumedCalories (ui fed) else 0)
    /\ darkMode (ui s0) = darkMode (ui fed)
    /\ dailyCalorieGoalStr (ui s0)
       = (if String.eqb (dailyCalorieGoalStr (ui fed)) "" then "2000"
          else dailyCalorieGoalStr (ui fed)).
Proof. exact (reload_restores_state fed day1 reachable_fed). Defined.

Lemma attach_refs_fix (s : App) :
  present (video (env s)) = videoRendered (ui s) -> attach_refs s = s.
Proof.
  unfold attach_refs. destruct s as [u [v ? ? ? ? ? ? ? ?]]. cbn.
  destruct (videoRendered u), v; cbn; intros H; try discriminate; reflexivity.
Qed.

Lemma step_toggle (s : App) :
  present (video (env s)) = videoRendered (ui s) ->
  step s ToggleDark = darkModeEffect (setDarkMode negb s).
Proof.
  intros Hv. unfold step, commit. cbn [handle].
  rewrite attach_refs_fix by exact Hv.
  unfold run_effects. cbn.
  destruct (darkMode (ui s)); cbn; rewrite String.eqb_refl, Z.eqb_refl; reflexivity.
Qed.

Lemma insert_back (k v v' : string) (ls : gmap string string) :
  ls !! k = Some v -> <[k:=v]> (<[k:=v']> ls) = ls.
Proof. intros H. now rewrite insert_insert_eq, insert_id. Qed.

Lemma darkModeEffect_eq (s : App) :
  darkModeEffect s =
  {| ui := ui s;
     env :=
       {| video := video (env s); canvas := canvas (env s);
          htmlDark := darkMode (ui s);
          localStorage :=
            <["darkMode" := String_of_bool (darkMode (ui s))]>
              (localStorage (env s));
          today := today (env s); liveTracks := liveTracks (env s);
          pendingCamera := pendingCamera (env s);
          pendingReads := pendingReads (env s);
          pendingAnalyses := pendingAnalyses (env s) |} |}.
Proof. reflexivity. Qed.

Lemma darkModeEffect_twice (s : App) :
  localStorage (env s) !! "darkMode"
    = Some (String_of_bool (darkMode (ui s))) ->
  htmlDark (env s) = darkMode (ui s) ->
  darkModeEffect (setDarkMode negb (darkModeEffect (setDarkMode negb s))) = s.
Proof.
  intros Hd Hh.
  rewrite (darkModeEffect_eq (setDarkMode negb (darkModeEffect _))).
  rewrite (darkModeEffect_eq (setDarkMode negb s)).
  destruct s as [[a1 a2 a3 a4 a5 a6 a7 a8 a9 a10] [v c h ls t l p1 p2 p3]].
  unfold setDarkMode, on_ui.
  cbn [ui env darkMode localStorage htmlDark activeTab image isAnalyzing
       analysis error cameraActive mealLogged dailyCalorieGoalStr
       consumedCalories video canvas today liveTracks pendingCamera
       pendingReads pendingAnalyses] in *.
  rewrite negb_involutive, (insert_back _ _ _ _ Hd), Hh. reflexivity.
Qed.

(** X3. Toggling dark mode twice brings every reachable state back as
    it was: the component's state, the storage and the document. *)
Theorem toggle_twice (s : App) :
  reachable s -> step (step s ToggleDark) ToggleDark = s.
Proof.
  intros Hr. destruct (reachable_in_sync s Hr) as (_ & _ & Hd & Hh & Hv).
  rewrite (step_toggle s Hv).
  assert (Hv' : present (video (env (darkModeEffect (setDarkMode negb s))))
                = videoRendered (ui (darkModeEffect (setDarkMode negb s))))
    by exact Hv.
  rewrite (step_toggle _ Hv').
  now apply darkModeEffect_twice.
Qed.

Lemma toggle_twice_witness : step (step fed ToggleDark) ToggleDark = fed.
Proof. exact (toggle_twice fed reachable_fed). Defined.

(** ** Further properties: requests in flight *)



Lemma pending_commit (old : ReactState) (s : App) :
  pendingCamera (env (commit old s)) = pendingCamera (env s)
  /\ pendingReads (env (commit old s)) = pendingReads (env s).
Proof.
  unfold commit, run_effects, attach_refs.
  repeat case_if; repeat split; reflexivity.
Qed.

Lemma pendingReads_step (s : App) (e : event) :
  pendingReads (env (step s e)) = pendingReads (env (handle e s)).
Proof. apply pending_commit. Qed.

Lemma idle_open_stop (n m : nat) (s : App) :
  idle_with n m s ->
  idle_with (S n) m (step (step s ClickOpenCamera) ClickStopCamera).
Proof.
  intros (Hr & Hs & Hc & Hf).
  assert (E1 : enabled s ClickOpenCamera = true) by exact Hs.
  pose proof (shown_initial _ Hs) as (Ht & Hi & Ha).
  assert (U1 : ui (step s ClickOpenCamera) = ui (startCamera s)) by apply ui_step.
  assert (E2 : enabled (step s ClickOpenCamera) ClickStopCamera = true).
  { change (shown (ui (step s ClickOpenCamera)) cameraView = true).
    rewrite U1. unfold shown, calorieView, truthy_image in *. cbn.
    rewrite Ht. cbn. destruct (image (ui s)); [rewrite Hi|]; reflexivity. }
  split; [|split; [|split]].
  - apply reachable_step; [apply reachable_step|]; assumption.
  - rewrite ui_step. cbn [handle]. rewrite ui_stopCamera.
    unfold shown, calorieView, truthy_image in *. cbn. rewrite U1. cbn.
    rewrite Ht. cbn.
    destruct (image (ui s)); [rewrite Hi|]; reflexivity.
  - unfold step. rewrite !(proj1 (pending_commit _ _)). cbn [handle].
    unfold stopCamera. repeat case_if; cbn; rewrite (proj1 (pending_commit _ _));
      cbn; now rewrite Hc.
  - unfold step. rewrite !(proj2 (pending_commit _ _)). cbn [handle].
    unfold stopCamera. repeat case_if; cbn; rewrite (proj2 (pending_commit _ _));
      cbn; now rewrite Hf.
Qed.

Lemma idle_choose (n m : nat) (s : App) :
  idle_with n m s -> idle_with n (S m) (step s (ChooseFile true)).
Proof.
  intros (Hr & Hs & Hc & Hf).
  assert (E1 : enabled s (ChooseFile true) = true) by exact Hs.
  split; [|split; [|split]].
  - now apply reachable_step.
  - rewrite ui_step. exact Hs.
  - unfold step. rewrite (proj1 (pending_commit _ _)). cbn. exact Hc.
  - unfold step. rewrite (proj2 (pending_commit _ _)). cbn. now rewrite Hf.
Qed.

(** X5. Camera requests and file reads are not guarded: for any [n]
    and [m] a state is reachable in which the initial view is shown while
    [n] calls of [getUserMedia] and [m] file reads have not answered
    (Open Camera then Cancel, [n] times; a file chosen [m] times). *)
Theorem requests_can_overlap (ls : gmap string string) (d : string) (s0 : App)
    (n m : nat) :
  mount ls d = Some s0 ->
  exists s, reachable s /\ shown (ui s) initialView = true
            /\ pendingCamera (env s) = n /\ pendingReads (env s) = m.
Proof.
  intros Hm.
  assert (H0 : idle_with 0 0 s0).
  { split; [eapply reachable_mount; eauto|].
    unfold mount in Hm. destruct (loadConsumedCalories ls d); try discriminate.
    injection Hm as <-. repeat split. }
  assert (Hn : exists s, idle_with n 0 s).
  { induction n as [|n [s IH]]; [eauto|]. eexists. apply idle_open_stop, IH. }
  destruct Hn as [s Hs].
  induction m as [|m [s' IH]]; [exists s; exact Hs|].
  eexists. apply idle_choose, IH.
Qed.

Lemma requests_can_overlap_witness :
  exists s, reachable s /\ shown (ui s) initialView = true
            /\ pendingCamera (env s) = 2%nat /\ pendingReads (env s) = 2%nat.
Proof.
  apply (requests_can_overlap ∅ day1 (default blank (mount ∅ day1)) 2 2).
  vm_compute; reflexivity.
Defined.

Lemma run_nil (s : App) : run s [] = s.
Proof. reflexivity. Qed.

Lemma run_cons (s : App) (e : event) (es : list event) :
  run s (e :: es) = run (step s e) es.
Proof. reflexivity. Qed.

Lemma offered_cons (s : App) (e : event) (es : list event) :
  offered s (e :: es) <-> enabled s e = true /\ offered (step s e) es.
Proof. reflexivity. Qed.

(** The next state of a run, named, with what the step does to the
    component's state and to the counts of awaited answers. *)
Ltac advance s e s' U R A :=
  assert (U : ui (step s e) = ui (handle e s)) by apply ui_step;
  assert (R : pendingReads (env (step s e)) = pendingReads (env (handle e s)))
    by apply pendingReads_step;
  assert (A : pendingAnalyses (env (step s e))
              = pendingAnalyses (env (handle e s)))
    by apply pendingAnalyses_step;
  rewrite pendingAnalyses_handle in A;
  revert U R A; generalize (step s e); intros s' U R A.

(** X6. Reset does not cancel an analysis: when a photo [a] is
    analysed, the page is reset and a photo [b] is uploaded before the
    answer comes, every event is offered, and the answer for [a] is shown
    with [b] and can be logged. *)
Theorem reset_does_not_cancel_analysis (s : App) (a b : string)
    (r : NutritionAnalysis) :
  reachable s ->
  shown (ui s) initialView = true ->
  pendingAnalyses (env s) = 0%nat ->
  truthy_string a = true ->
  truthy_string b = true ->
  let before := [ChooseFile true; FileLoaded (Some a)] in
  let after := [ClickReset; ChooseFile true; FileLoaded (Some b); AnalysisDone r] in
  let es := (before ++ ClickAnalyze :: after)%list in
  image (ui (run s before)) = Some a
  /\ offered s es
  /\ image (ui (run s es)) = Some b
  /\ analysis (ui (run s es)) = Some r
  /\ enabled (run s es) ClickLogMeal = true.
Proof.
  intros Hr Hs Hp Ha Hb before after es.
  destruct (reachable_invariants s Hr) as [(_ & Hz & _) _].
  rewrite Hp in Hz. cbn [Nat.eqb negb] in Hz.
  pose proof (shown_initial _ Hs) as (Ht & Hi & Hc).
  unfold es, before, after. cbn [app].
  rewrite !run_cons, !run_nil, !offered_cons.
  advance s (ChooseFile true) s1 U1 R1 A1.
  advance s1 (FileLoaded (Some a)) s2 U2 R2 A2.
  advance s2 ClickAnalyze s3 U3 R3 A3.
  advance s3 ClickReset s4 U4 R4 A4.
  advance s4 (ChooseFile true) s5 U5 R5 A5.
  advance s5 (FileLoaded (Some b)) s6 U6 R6 A6.
  advance s6 (AnalysisDone r) s7 U7 R7 A7.
  cbn [handle] in *.
  assert (F2 : activeTab (ui s2) = calorie /\ image (ui s2) = Some a
               /\ cameraActive (ui s2) = false /\ isAnalyzing (ui s2) = false
               /\ analysis (ui s2) = None).
  { rewrite U2. unfold onloadend. cbn. rewrite U1. auto. }
  destruct F2 as (F2t & F2i & F2c & F2z & F2a).
  assert (T2 : truthy_image (ui s2) = true).
  { unfold truthy_image. now rewrite F2i. }
  rewrite T2, A2, A1, Hp in A3. rewrite A3 in A4. rewrite A4 in A5.
  rewrite A5 in A6.
  assert (F4 : activeTab (ui s4) = calorie /\ image (ui s4) = None
               /\ cameraActive (ui s4) = false).
  { rewrite U4. unfold reset. cbn. rewrite U3. unfold handleAnalyze.
    rewrite T2. cbn. auto. }
  destruct F4 as (F4t & F4i & F4c).
  assert (F6 : activeTab (ui s6) = calorie /\ image (ui s6) = Some b
               /\ cameraActive (ui s6) = false /\ mealLogged (ui s6) = false).
  { rewrite U6. unfold onloadend. cbn. rewrite U5. auto. }
  destruct F6 as (F6t & F6i & F6c & F6m).
  assert (F7 : activeTab (ui s7) = calorie /\ image (ui s7) = Some b
               /\ cameraActive (ui s7) = false /\ mealLogged (ui s7) = false
               /\ analysis (ui s7) = Some r).
  { rewrite U7. unfold handleAnalyze_resolved. cbn. auto. }
  destruct F7 as (F7t & F7i & F7c & F7m & F7a).
  split; [exact F2i|]. split; [|split; [exact F7i|split; [exact F7a|]]].
  - split; [exact Hs|]. split.
    { unfold enabled. rewrite R1. cbn. reflexivity. }
    split.
    { unfold enabled, shown, calorieView. now rewrite F2t, T2, F2c, F2z, F2a. }
    split; [reflexivity|]. split.
    { unfold enabled, shown, calorieView, truthy_image.
      now rewrite F4t, F4i, F4c. }
    split.
    { unfold enabled. rewrite R5. cbn. reflexivity. }
    split; [|exact I]. unfold enabled. now rewrite A6.
  - unfold enabled, shown, calorieView, truthy_image.
    now rewrite F7t, F7i, Hb, F7c, F7m, F7a.
Qed.

Lemma reset_does_not_cancel_analysis_witness :
  let s := default blank (mount ∅ day1) in
  let r := {| totalCalories := 300 |} in
  let before := [ChooseFile true; FileLoaded (Some photo)] in
  let after :=
    [ClickReset; ChooseFile true; FileLoaded (Some photo2); AnalysisDone r] in
  let es := (before ++ ClickAnalyze :: after)%list in
  image (ui (run s before)) = Some photo
  /\ offered s es
  /\ image (ui (run s es)) = Some photo2
  /\ analysis (ui (run s es)) = Some r
  /\ enabled (run s es) ClickLogMeal = true.
Proof.
  apply (reset_does_not_cancel_analysis (default blank (mount ∅ day1))
           photo photo2 {| totalCalories := 300 |}).
  - exact reachable_first_render.
  - vm_compute; reflexivity.
  - vm_compute; reflexivity.
  - vm_compute; reflexivity.
  - vm_compute; reflexivity.
Defined.

(** ** Further properties: the camera *)

Lemma attached_commit (old : ReactState) (s : App) (t : nat) :
  t ∈ attached_tracks (commit old s) -> t ∈ attached_tracks s.
Proof.
  unfold attached_tracks, commit. rewrite video_run_effects.
  unfold attach_refs. destruct (videoRendered (ui s)); cbn.
  - destruct (video (env s)) as [[?|]|] eqn:E; cbn; rewrite ?E; auto.
  - intros H. now apply not_elem_of_nil in H.
Qed.

Lemma unattached_step (s : App) (e : event) (t : nat) :
  t ∈ liveTracks (env s) -> t ∉ attached_tracks s -> hands_out t e = false ->
  t ∈ liveTracks (env (step s e)) /\ t ∉ attached_tracks (step s e).
Proof.
  intros Hl Ha He. unfold step.
  rewrite (proj1 (proj2 (env_commit _ _))).
  enough (H : t ∈ liveTracks (env (handle e s)) /\ t ∉ attached_tracks (handle e s)).
  { destruct H as [H1 H2]. split; [exact H1|].
    intros C. apply H2. eapply attached_commit; eauto. }
  unfold attached_tracks in *.
  destruct s as [u [[[st|]|] ? ? ? ? l ? ? ?]]; destruct e; cbn in *;
    unfold captureImage, stopCamera, handleFileUpload, handleAnalyze,
      handleLogMeal; cbn;
    repeat case_if; cbn in *; try congruence;
    try (apply bool_decide_eq_false in He);
    rewrite ?elem_of_union, ?elem_of_difference, ?elem_of_list_to_set;
    repeat match goal with
    | H : Some _ = Some _ |- _ => injection H as H; subst
    end;
    try (split; [tauto | first [assumption | apply not_elem_of_nil]]).
Qed.

(** X7. Tracks are stopped only through the stream the video element
    holds: a live track that the element does not hold stays live, and
    stays off the element, whatever happens next, as long as no new
    stream hands the same track out again. *)
Theorem unattached_track_stays_live (s : App) (es : list event) (t : nat) :
  t ∈ liveTracks (env s) -> t ∉ attached_tracks s ->
  Forall (fun e => hands_out t e = false) es ->
  t ∈ liveTracks (env (run s es)) /\ t ∉ attached_tracks (run s es).
Proof.
  revert s. induction es as [|e es IH]; intros s Hl Ha Hf; [now split|].
  inversion Hf as [|? ? He Hes]; subst. cbn.
  destruct (unattached_step s e t Hl Ha He) as [G1 G2].
  now apply IH.
Qed.

Lemma unattached_track_stays_live_witness :
  7%nat ∈ liveTracks (env (run walked_away
            [ClickTab calorie; ClickOpenCamera; CameraGranted [9%nat];
             ClickStopCamera]))
  /\ 7%nat ∉ attached_tracks (run walked_away
            [ClickTab calorie; ClickOpenCamera; CameraGranted [9%nat];
             ClickStopCamera]).
Proof.
  apply (unattached_track_stays_live walked_away
           [ClickTab calorie; ClickOpenCamera; CameraGranted [9%nat];
            ClickStopCamera] 7%nat).
  - vm_compute. set_solver.
  - vm_compute. apply not_elem_of_nil.
  - repeat first [apply List.Forall_nil
                  | apply List.Forall_cons; [vm_compute; reflexivity|]].
Defined.

(** X8. The message of a refused camera is set and not shown: from the
    camera view without an image, the refusal leads to the initial view,
    which has no place for the message; a photo uploaded next is then
    previewed under the camera's message. *)
Theorem camera_denial_message_unseen (s : App) (img : string) :
  shown (ui s) cameraView = true ->
  truthy_image (ui s) = false ->
  enabled s CameraDenied = true ->
  truthy_string img = true ->
  let s1 := step s CameraDenied in
  let es := [CameraDenied; ChooseFile true; FileLoaded (Some img)] in
  error (ui s1) = Some camera_error
  /\ shown (ui s1) initialView = true
  /\ errorBanner (ui s1) = None
  /\ offered s es
  /\ image (ui (run s es)) = Some img
  /\ errorBanner (ui (run s es)) = Some camera_error.
Proof.
  intros Hv Hi He Himg s1 es. unfold s1, es. clear s1 es.
  apply shown_camera in Hv as (Ht & Hc).
  rewrite !run_cons, !run_nil, !offered_cons.
  advance s CameraDenied s1 U1 R1 A1.
  advance s1 (ChooseFile true) s2 U2 R2 A2.
  advance s2 (FileLoaded (Some img)) s3 U3 R3 A3.
  cbn [handle] in *.
  assert (F1 : activeTab (ui s1) = calorie /\ image (ui s1) = image (ui s)
               /\ cameraActive (ui s1) = false
               /\ error (ui s1) = Some camera_error).
  { rewrite U1. cbn. auto. }
  destruct F1 as (F1t & F1i & F1c & F1e).
  assert (V1 : shown (ui s1) initialView = true).
  { unfold shown, calorieView, truthy_image in *.
    rewrite F1t, F1i, F1c. destruct (image (ui s)); [rewrite Hi|]; reflexivity. }
  split; [exact F1e|]. split; [exact V1|]. split; [|split; [|split]].
  - unfold errorBanner. rewrite F1e, F1t. unfold shown in V1.
    rewrite F1t in V1. destruct (calorieView (ui s1)); try discriminate V1.
    now destruct (truthy_string camera_error).
  - split; [exact He|]. split; [exact V1|]. split; [|exact I].
    unfold enabled. rewrite R2. cbn. reflexivity.
  - now rewrite U3.
  - change (ui s2 = ui s1) in U2.
    rewrite U3. unfold errorBanner, onloadend. cbn. rewrite U2, F1e, F1t.
    unfold calorieView, truthy_image. cbn. now rewrite Himg, F1c.
Qed.

Lemma camera_denial_message_unseen_witness :
  let s1 := step awaiting_camera CameraDenied in
  let es := [CameraDenied; ChooseFile true; FileLoaded (Some photo)] in
  error (ui s1) = Some camera_error
  /\ shown (ui s1) initialView = true
  /\ errorBanner (ui s1) = None
  /\ offered awaiting_camera es
  /\ image (ui (run awaiting_camera es)) = Some photo
  /\ errorBanner (ui (run awaiting_camera es)) = Some camera_error.
Proof.
  apply (camera_denial_message_unseen awaiting_camera photo);
    vm_compute; reflexivity.
Defined.

(** ** Further properties: what the calorie tab displays *)

(** X9. Logging does not move [Remaining today] on the analysis card:
    before the click the card already takes the meal off, after it the
    card shows the remaining calories themselves. *)
Theorem log_keeps_remaining_today (s : App) :
  remainingToday (ui (step s ClickLogMeal)) = remainingToday (ui s)
  /\ (analysis (ui s) <> None ->
      remainingToday (ui (step s ClickLogMeal))
      = Some (remainingCalories (ui (step s ClickLogMeal)))).
Proof.
  rewrite ui_step. cbn [handle]. unfold handleLogMeal, remainingToday.
  destruct (analysis (ui s)) as [a|] eqn:Ea;
    [|cbn; rewrite Ea; split; [reflexivity | congruence]].
  destruct (mealLogged (ui s)) eqn:Em; cbn; rewrite ?Ea, ?Em; cbn.
  - split; reflexivity.
  - unfold remainingCalories, dailyCalorieGoal. cbn.
    split; intros; f_equal; lia.
Qed.

(** X10. The text under the progress bar never shows a negative
    number: it is the absolute value of the remaining calories, followed
    by [over] when the total is above the goal and by [left]
    otherwise. *)
Theorem ledger_label_never_negative (u : ReactState) :
  ledgerLabel u
  = string_of_Z (Z.abs (remainingCalories u))
    ++ (if isOverGoal u then " over" else " left")
  /\ exists c r, ledgerLabel u = String c r /\ c <> "-"%char.
Proof.
  assert (E : ledgerLabel u
              = string_of_Z (Z.abs (remainingCalories u))
                ++ (if isOverGoal u then " over" else " left")).
  { unfold ledgerLabel, isOverGoal, remainingCalories.
    destruct (Z.ltb_spec (dailyCalorieGoal u) (consumedCalories u));
      [reflexivity|]. now rewrite Z.abs_eq by lia. }
  split; [exact E|]. rewrite E.
  pose proof (Z.abs_nonneg (remainingCalories u)) as Hn.
  destruct (Z.abs (remainingCalories u)) as [|p|p]; [| |lia].
  - eexists _, _. split; [reflexivity | discriminate].
  - unfold string_of_Z. cbn [Z.to_int NilEmpty.string_of_int].
    destruct (digit_head_to_uint p (if isOverGoal u then " over" else " left"))
      as (c & r & -> & Hc).
    exists c, r. split; [reflexivity|]. intros ->. discriminate Hc.
Qed.






Lemma inject_Z_pos (z : Z) : 0 < z -> (0 < inject_Z z)%Q.
Proof. intros H. change 0%Q with (inject_Z 0). now rewrite <- Zlt_Qlt. Qed.

(** The percentage before the clamp, for a total between 1 and the
    goal. *)
Lemma percent_bounds (c g : Z) :
  0 < c <= g -> g < 2 ^ 40 ->
  exists p : Q,
    js_mul_pos (js_div c g) 100 = Fin p
    /\ (inject_Z c * 100 * (1 - Double.u) * (1 - Double.u) <= p * inject_Z g
        /\ p * inject_Z g
           <= inject_Z c * 100 * (1 + Double.u) * (1 + Double.u))%Q.
Proof.
  intros Hc Hg. unfold js_div.
  destruct (Z.eqb_spec g 0) as [|_]; [lia|]. cbn [js_mul_pos].
  eexists. split; [reflexivity|].
  assert (HG : (0 < inject_Z g)%Q) by (apply inject_Z_pos; lia).
  assert (HC : (0 < inject_Z c)%Q) by (apply inject_Z_pos; lia).
  assert (HCG : (inject_Z c <= inject_Z g)%Q) by (rewrite <- Zle_Qle; lia).
  set (x := (inject_Z c / inject_Z g)%Q).
  assert (Hx : (x * inject_Z g == inject_Z c)%Q) by (unfold x; field; lra).
  assert (Hxp : (0 < x)%Q) by nra.
  assert (Hx1 : (x <= 1)%Q) by nra.
  destruct (round_bounds x Hxp ltac:(lra)) as [Hq1 Hq2].
  set (q := Double.div (inject_Z c) (inject_Z g)) in *.
  change (Double.round x) with q in Hq1, Hq2.
  unfold Double.u in *.
  assert (Hqp : (0 < q)%Q) by nra.
  assert (Hq2' : (q <= 1 + (1 # 9007199254740992))%Q) by nra.
  set (y := (q * 100)%Q).
  destruct (round_bounds y ltac:(unfold y; lra) ltac:(unfold y; lra)) as [Hp1 Hp2].
  set (p := Double.mul q 100) in *.
  change (Double.round y) with p in Hp1, Hp2. unfold y, Double.u in *.
  pose proof (Qmult_le_compat_r _ _ (inject_Z g) Hq1 ltac:(lra)) as L1.
  pose proof (Qmult_le_compat_r _ _ (inject_Z g) Hq2 ltac:(lra)) as L2.
  pose proof (Qmult_le_compat_r _ _ (inject_Z g) Hp1 ltac:(lra)) as L3.
  pose proof (Qmult_le_compat_r _ _ (inject_Z g) Hp2 ltac:(lra)) as L4.
  split; nra.
Qed.

(** X12. The colours of the progress bar: red exactly when the total
    is above the goal; and, for a goal below 2^40 and a total from 0 to
    the goal, amber when the total is above 80 percent of the goal and
    green when it is below. *)
Theorem bar_colour_thresholds (u : ReactState) :
  (barColour u = red <-> dailyCalorieGoal u < consumedCalories u)
  /\ (0 < dailyCalorieGoal u < 2 ^ 40 ->
      0 <= consumedCalories u <= dailyCalorieGoal u ->
      (4 * dailyCalorieGoal u < 5 * consumedCalories u -> barColour u = amber)
      /\ (5 * consumedCalories u < 4 * dailyCalorieGoal u ->
          barColour u = emerald)).
Proof.
  unfold barColour, isOverGoal, progressPercent.
  set (g := dailyCalorieGoal u). set (c := consumedCalories u).
  split.
  - destruct (Z.ltb_spec g c); [tauto|].
    split; [|lia]. now destruct (js_gt _ 80).
  - intros Hg Hc. destruct (Z.ltb_spec g c); [lia|].
    destruct (Z.eq_dec c 0) as [E|E].
    + rewrite E. unfold js_div. destruct (Z.eqb_spec g 0); [lia|].
      split; [lia|]. intros _. reflexivity.
    + destruct (percent_bounds c g ltac:(lia) ltac:(lia)) as (p & -> & Hlo & Hhi).
      assert (HG : (0 < inject_Z g)%Q) by (apply inject_Z_pos; lia).
      assert (HG' : (inject_Z g < 1099511627776)%Q).
      { change 1099511627776%Q with (inject_Z (2 ^ 40)). rewrite <- Zlt_Qlt. lia. }
      unfold Double.u in *. cbn [Math_min js_gt].
      split; intros Hcmp.
      * assert (Hcg : (4 * inject_Z g + 1 <= 5 * inject_Z c)%Q).
        { change 4%Q with (inject_Z 4). change 5%Q with (inject_Z 5).
          change 1%Q with (inject_Z 1).
          rewrite <- !inject_Z_mult, <- inject_Z_plus, <- Zle_Qle. lia. }
        assert (Hp : ~ (p <= 80)%Q).
        { intros Hp.
          pose proof (Qmult_le_compat_r _ _ (inject_Z g) Hp ltac:(lra)). lra. }
        destruct (Qle_bool p 100) eqn:E100.
        -- destruct (Qle_bool p 80) eqn:E80; [|reflexivity].
           apply Qle_bool_iff in E80. contradiction.
        -- reflexivity.
      * assert (Hcg : (5 * inject_Z c + 1 <= 4 * inject_Z g)%Q).
        { change 4%Q with (inject_Z 4). change 5%Q with (inject_Z 5).
          change 1%Q with (inject_Z 1).
          rewrite <- !inject_Z_mult, <- inject_Z_plus, <- Zle_Qle. lia. }
        assert (Hp : (p <= 80)%Q).
        { apply Qnot_lt_le. intros Hp.
          pose proof (Qmult_lt_compat_r _ _ (inject_Z g) HG Hp). lra. }
        assert (E100 : Qle_bool p 100 = true) by (apply Qle_bool_iff; lra).
        rewrite E100. apply Qle_bool_iff in Hp. now rewrite Hp.
Qed.

(** X13. The canvas is never larger than the frame, on either side,
    and keeps the frame's orientation: a landscape frame gives a
    landscape canvas, any other frame a canvas at least as high as
    wide. *)
Theorem canvas_never_larger (w h : Z) :
  0 < w < 2 ^ 32 -> 0 < h < 2 ^ 32 ->
  let '(w', h') := Capture.canvas_size w h in
  0 <= w' <= w /\ 0 <= h' <= h
  /\ (h < w -> h' < w')
  /\ (w <= h -> w' <= h').
Proof.
  intros Hw Hh.
  destruct (scaling_cases w h Hw Hh)
    as [(Hm & _ & Ec) | [(Hlt & Hb & _ & E1 & E2) | (Hle & Hb & _ & E1 & E2)]].
  - rewrite Ec. lia.
  - destruct (Capture.canvas_size w h) as [w' h']. cbn [fst snd] in *. nia.
  - destruct (Capture.canvas_size w h) as [w' h']. cbn [fst snd] in *. nia.
Qed.

Lemma canvas_never_larger_witness :
  let '(w', h') := Capture.canvas_size 4032 3024 in
  0 <= w' <= 4032 /\ 0 <= h' <= 3024
  /\ (3024 < 4032 -> h' < w')
  /\ (4032 <= 3024 -> w' <= h').
Proof. apply (canvas_never_larger 4032 3024); lia. Defined.

(** ** Further properties: the analysis request and its answer *)

Lemma split_app (a rest : string) :
  has_comma a = false ->
  split_on "," (a ++ String "," rest) = a :: split_on "," rest.
Proof.
  induction a as [|c a IH]; intros H.
  - now rewrite append_nil_l.
  - cbn [has_comma] in H. apply orb_false_iff in H as [Hc Ha].
    rewrite append_cons. cbn [split_on]. rewrite Hc, (IH Ha). reflexivity.
Qed.

Lemma split_plain (a : string) : has_comma a = false -> split_on "," a = [a].
Proof.
  induction a as [|c a IH]; intros H; [reflexivity|].
  cbn [has_comma] in H. apply orb_false_iff in H as [Hc Ha].
  cbn [split_on]. now rewrite Hc, (IH Ha).
Qed.

(** X14. The request [handleAnalyze] sends does not depend on the goal
    or on the total: the remaining calories it passes are the lower bound
    of a range whose upper bound it never passes, so the prompt is the
    one without a goal.  The image part is what follows the first comma
    of the image (the payload of a data URL), and is undefined for an
    image without a comma. *)
Theorem analysis_request_ignores_goal (u : ReactState) (r : AnalysisRequest) :
  handleAnalyze_request u = Some r ->
  text r = text (analyzeFoodImage_request EmptyString None None)
  /\ (forall u', image u' = image u -> handleAnalyze_request u' = Some r)
  /\ (forall header payload,
        image u = Some (header ++ String "," payload) ->
        has_comma header = false -> has_comma payload = false ->
        data r = Some payload)
  /\ (forall img, image u = Some img -> has_comma img = false ->
        data r = None).
Proof.
  unfold handleAnalyze_request. intros H.
  destruct (image u) as [img|] eqn:Ei; [|discriminate H].
  destruct (truthy_string img) eqn:Et; [|discriminate H].
  injection H as <-.
  split; [|split; [|split]].
  - cbn. now destruct (0 <? remainingCalories u).
  - intros u' ->. rewrite Et.
    now destruct (0 <? remainingCalories u), (0 <? remainingCalories u').
  - intros header payload [= ->] Hh Hp. cbn [data analyzeFoodImage_request].
    now rewrite (split_app _ _ Hh), (split_plain _ Hp).
  - intros img' [= ->] Hc. cbn [data analyzeFoodImage_request].
    now rewrite (split_plain _ Hc).
Qed.

Lemma analysis_request_ignores_goal_witness :
  let r := analyzeFoodImage_request photo (Some 2000) None in
  text r = text (analyzeFoodImage_request EmptyString None None)
  /\ data r = Some "/9j/4AAQ".
Proof.
  destruct (analysis_request_ignores_goal photo_ui
              (analyzeFoodImage_request photo (Some 2000) None))
    as (H1 & _ & H3 & _).
  - vm_compute; reflexivity.
  - split; [exact H1|].
    apply (H3 "data:image/jpeg;base64" "/9j/4AAQ"); reflexivity.
Defined.

(** X15. A reply without text is not a failure: it is read as the
    empty object, which is truthy, so the analysis card is rendered, and
    its breakdown throws ([items] is undefined).  The request fails, as
    the [catch] has it, exactly when the reply has a text that is not
    JSON. *)
Theorem empty_reply_breaks_render (response_text : option string) :
  (response_text = None \/ response_text = Some EmptyString ->
   exists v, parse_response response_text = Some v
             /\ truthy v = true /\ breakdown v = None)
  /\ (parse_response response_text = None
      <-> exists t, response_text = Some t /\ t <> EmptyString
                    /\ JSON_parse t = None).
Proof.
  assert (E0 : JSON_parse "{}" = Some (JObj [])) by (vm_compute; reflexivity).
  split.
  - intros [-> | ->]; exists (JObj []); unfold parse_response;
      change (truthy_string EmptyString) with false; cbv iota;
      (split; [exact E0 | split; reflexivity]).
  - unfold parse_response. destruct response_text as [t|].
    + destruct t as [|c t'] eqn:E.
      * change (truthy_string EmptyString) with false. cbv iota. rewrite E0.
        split; [discriminate|]. intros (t0 & [= <-] & Hn & _). congruence.
      * change (truthy_string (String c t')) with true. cbv iota.
        split.
        -- intros H. exists (String c t'). repeat split; [discriminate | exact H].
        -- now intros (t0 & [= <-] & _ & H).
    + rewrite E0. split; [discriminate|]. intros (t0 & H & _). discriminate H.
Qed.

(** ** Further properties: the workout and journey tabs *)

Lemma setError_same (s : App) : setError (error (ui s)) s = s.
Proof. now destruct s as [[] ?]. Qed.

Lemma core_page_handle (p : Page) (e : page_event) :
  core (page_handle e p) = handle (core_of p e) (core p).
Proof.
  destruct e as [e'| | | | | | | | | | | | | | |]; cbn;
    try reflexivity; try (symmetry; apply setError_same).
  - destruct e'; reflexivity.
  - unfold handleGenerateWorkout.
    now destruct (truthy_string (exercise (plans p))).
  - unfold handleExerciseClick. case_if; cbn; symmetry; apply setError_same.
  - unfold handleCalculateJourney. now case_if.
Qed.

Lemma core_page_step (p : Page) (e : page_event) :
  core (page_step p e) = step (core p) (core_of p e).
Proof. unfold page_step, step. cbn. now rewrite core_page_handle. Qed.

Lemma enabled_core_of (p : Page) (e : page_event) :
  page_enabled p e = true -> enabled (core p) (core_of p e) = true.
Proof.
  destruct e as [e'| | | | | | | | | | | | | | |]; try reflexivity.
  destruct e'; cbn; try discriminate; auto.
Qed.

Lemma page_session_reachable (ls : gmap string string) (d : string)
    (es : list page_event) (p0 p : Page) :
  page_mount ls d = Some p0 -> page_offered p0 es -> page_run p0 es = p ->
  page_reachable p.
Proof.
  intros Hm Ho <-.
  assert (Hr : page_reachable p0) by (eapply page_reachable_mount; eauto).
  clear Hm. revert p0 Ho Hr. induction es as [|e es IH]; intros p0 Ho Hr.
  - exact Hr.
  - destruct Ho as [He Ho]. cbn. apply IH; [exact Ho|].
    now apply page_reachable_step.
Qed.

Lemma reachable_planning : page_reachable planning.
Proof.
  apply (page_session_reachable ∅ day1
           [Core (ClickTab workout); ExerciseInput "Squat"; ClickGenerate]
           (default blank_page (page_mount ∅ day1)) planning).
  - vm_compute; reflexivity.
  - vm_compute; repeat split.
  - unfold planning; reflexivity.
Qed.

(** X16. The calorie tab's transition system covers the whole
    component: along any events of the page, those of the other tabs and
    of the exercise dialog included, the state of the calorie tab is one
    that its own events reach (the other handlers touch it through
    [setError] only). *)
Theorem page_refines_calorie_tab (p : Page) :
  page_reachable p -> reachable (core p).
Proof.
  induction 1 as [ls d p Hm | p e Hp IH He].
  - unfold page_mount in Hm.
    destruct (mount ls d) as [s|] eqn:E; [|discriminate].
    injection Hm as <-. eapply reachable_mount; eauto.
  - rewrite core_page_step. apply reachable_step; [exact IH|].
    now apply enabled_core_of.
Qed.

Lemma page_refines_calorie_tab_witness : reachable (core planning).
Proof. exact (page_refines_calorie_tab planning reachable_planning). Defined.


Ltac use_page_enabled :=
  repeat match goal with
  | H : (_ && _)%bool = true |- _ => apply andb_true_iff in H as [? ?]
  | H : negb _ = true |- _ => apply negb_true_iff in H
  | H : (_ || _)%bool = false |- _ => apply orb_false_iff in H as [? ?]
  | H : negb _ = false |- _ => apply negb_false_iff in H
  | H : Nat.eqb _ _ = false |- _ => apply Nat.eqb_neq in H
  | H : match ?t with calorie => _ | workout => _ | journey => _ end = true |- _ =>
      destruct t eqn:?; try discriminate H
  end.




(** The error a handler of the calorie tab leaves. *)
Lemma error_handle (e : event) (s : App) :
  (forall m, e <> PlanHandlers m) ->
  error (ui (handle e s)) = error (ui s)
  \/ error (ui (handle e s)) = None
  \/ error (ui (handle e s)) = Some camera_error
  \/ error (ui (handle e s)) = Some analysis_error.
Proof.
  intros Hm. destruct e; cbn [handle];
    rewrite ?ui_startCamera_resolved, ?ui_stopCamera, ?ui_captureImage;
    unfold handleFileUpload, handleAnalyze, handleLogMeal;
    repeat case_if; cbn; auto.
  now destruct (Hm message).
Qed.

Ltac in_shown_errors :=
  unfold shown_errors;
  solve [repeat first [apply list_elem_of_here | apply list_elem_of_further]].

(** X18. The only messages the page ever holds are those of the five
    requests that failed.  The two validation messages of
    [handleGenerateWorkout] and [handleCalculateJourney] are never set:
    their buttons are disabled while a field they need is empty. *)
Theorem validation_messages_unreachable (p : Page) :
  page_reachable p ->
  error (ui (core p)) ∈ shown_errors
  /\ error (ui (core p)) <> Some exercise_missing
  /\ error (ui (core p)) <> Some journey_missing.
Proof.
  intros Hr.
  assert (H : error (ui (core p)) ∈ shown_errors).
  { induction Hr as [ls d p Hm | p e Hp IH He].
    - unfold page_mount in Hm.
      destruct (mount ls d) as [s|] eqn:E; [|discriminate].
      injection Hm as <-. apply mount_inv in E as (c & _ & Hu & _).
      cbn. rewrite Hu. cbn. in_shown_errors.
    - rewrite core_page_step, ui_step.
      destruct e as [e'| | | | | | | | | | | | | | |];
        cbn [core_of handle]; cbn [page_enabled] in He; use_page_enabled;
        try (cbn; first [assumption | in_shown_errors]).
      + assert (Hn : forall m, e' <> PlanHandlers m).
        { intros m ->. discriminate He. }
        destruct (error_handle e' (core p) Hn) as [E|[E|[E|E]]]; rewrite E;
          first [assumption | in_shown_errors].
      + match goal with H : truthy_string _ = true |- _ => rewrite H end.
        cbn. in_shown_errors.
      + repeat match goal with H : truthy_string _ = true |- _ =>
          rewrite H; clear H end.
        cbn. in_shown_errors. }
  split; [exact H|].
  unfold shown_errors in H.
  split; intros E; rewrite E in H;
    repeat (apply elem_of_cons in H as [H|H]; [discriminate H|]);
    now apply not_elem_of_nil in H.
Qed.

Lemma validation_messages_unreachable_witness :
  error (ui (core planning)) ∈ shown_errors
  /\ error (ui (core planning)) <> Some exercise_missing
  /\ error (ui (core planning)) <> Some journey_missing.
Proof.
  exact (validation_messages_unreachable planning reachable_planning).
Defined.

Lemma toLowerCase_app (a b : string) :
  toLowerCase (a ++ b) = toLowerCase a ++ toLowerCase b.
Proof.
  induction a as [|c a IH]; [now rewrite !append_nil_l|].
  rewrite append_cons. cbn [toLowerCase]. now rewrite append_cons, IH.
Qed.

Lemma strip_prefix_app (b c : string) : strip_prefix b (b ++ c) = Some c.
Proof.
  induction b as [|x b IH]; [now rewrite append_nil_l|].
  rewrite append_cons. cbn [strip_prefix]. now rewrite Ascii.eqb_refl.
Qed.

Lemma includes_app (a b c : string) : includes (a ++ b ++ c) b = true.
Proof.
  induction a as [|x a IH].
  - rewrite append_nil_l. destruct (b ++ c) eqn:E;
      cbn [includes]; rewrite <- E, strip_prefix_app; reflexivity.
  - rewrite append_cons. cbn [includes]. rewrite IH.
    now destruct (strip_prefix b _).
Qed.

Lemma strip_prefix_spec (b s r : string) :
  strip_prefix b s = Some r -> s = b ++ r.
Proof.
  revert s. induction b as [|x b IH]; intros s H.
  - cbn in H. injection H as ->. now rewrite append_nil_l.
  - destruct s as [|y s]; [discriminate H|]. cbn [strip_prefix] in H.
    destruct (Ascii.eqb_spec x y) as [->|]; [|discriminate H].
    rewrite append_cons. f_equal. now apply IH.
Qed.

Lemma includes_spec (s b : string) :
  includes s b = true -> exists a c, s = a ++ b ++ c.
Proof.
  induction s as [|x s IH]; cbn [includes];
    destruct (strip_prefix b _) as [r|] eqn:E; intros H; try discriminate H.
  - exists EmptyString, r. rewrite append_nil_l. now apply strip_prefix_spec.
  - exists EmptyString, r. rewrite append_nil_l. now apply strip_prefix_spec.
  - destruct (IH H) as (a & c & ->). exists (String x a), c.
    now rewrite append_cons.
Qed.

Lemma toLowerCase_split (s a b : string) :
  toLowerCase s = a ++ b ->
  exists s1 s2, s = s1 ++ s2 /\ toLowerCase s1 = a /\ toLowerCase s2 = b.
Proof.
  revert s. induction a as [|x a IH]; intros s H.
  - rewrite append_nil_l in H. exists EmptyString, s.
    now rewrite append_nil_l.
  - rewrite append_cons in H. destruct s as [|y s]; [discriminate H|].
    cbn [toLowerCase] in H. injection H as Hx H.
    destruct (IH s H) as (s1 & s2 & -> & <- & <-).
    exists (String y s1), s2. rewrite append_cons. cbn [toLowerCase].
    now rewrite Hx.
Qed.

(** X19. The guard of [handleExerciseClick] is a search for two words:
    a click does nothing exactly when the name is empty or holds [rest]
    or [none] somewhere, in any mix of upper and lower case (Rest Day,
    but also Wrestling and Forest Run); any other name starts a
    request. *)
Theorem exercise_guard_is_substring (name : string) (p : Page) :
  handleExerciseClick name p = p
  <-> name = EmptyString
      \/ exists pre w post,
           name = pre ++ w ++ post
           /\ (toLowerCase w = "rest" \/ toLowerCase w = "none").
Proof.
  unfold handleExerciseClick. split.
  - destruct (negb (truthy_string name)) eqn:En.
    { intros _. left. apply negb_true_iff in En. unfold truthy_string in En.
      apply negb_false_iff in En. now apply String.eqb_eq in En. }
    cbn [orb].
    assert (Hsplit : forall word,
      includes (toLowerCase name) word = true ->
      exists pre w post, name = pre ++ w ++ post /\ toLowerCase w = word).
    { intros word Hi. apply includes_spec in Hi as (a & c & Hi).
      apply toLowerCase_split in Hi as (pre & rest & -> & _ & Hi).
      apply toLowerCase_split in Hi as (w & post & -> & Hw & _).
      now exists pre, w, post. }
    destruct (includes (toLowerCase name) "rest") eqn:Er.
    { intros _. right. destruct (Hsplit _ Er) as (pre & w & post & -> & Hw).
      exists pre, w, post. auto. }
    destruct (includes (toLowerCase name) "none") eqn:Eo.
    { intros _. right. destruct (Hsplit _ Eo) as (pre & w & post & -> & Hw).
      exists pre, w, post. auto. }
    cbn [orb]. intros H.
    assert (Hp : pendingExercises (plans p) = S (pendingExercises (plans p))).
    { now rewrite <- H at 1. }
    lia.
  - intros [-> | (pre & w & post & -> & H)]; [reflexivity|].
    rewrite !toLowerCase_app.
    destruct H as [-> | ->]; rewrite includes_app;
      now rewrite ?orb_true_r.
Qed.

(** ** Further properties: the total across the page *)

Lemma total_step (s : App) (e : event) :
  changes_total e = false ->
  consumedCalories (ui (step s e)) = consumedCalories (ui s)
  /\ localStorage (env (step s e)) !! "calorieLog"
     = localStorage (env s) !! "calorieLog".
Proof.
  intros He.
  assert (Hc : consumedCalories (ui (handle e s)) = consumedCalories (ui s)).
  { destruct e; try discriminate He; cbn [handle];
      rewrite ?ui_startCamera_resolved, ?ui_stopCamera, ?ui_captureImage;
      unfold handleFileUpload, handleAnalyze; repeat case_if; reflexivity. }
  rewrite calorieLog_step, ui_step, Hc, Z.eqb_refl. split; reflexivity.
Qed.

Lemma page_run_cons (p : Page) (e : page_event) (es : list page_event) :
  page_run p (e :: es) = page_run (page_step p e) es.
Proof. reflexivity. Qed.

(** X20. Only Log Meal and Reset Day move the total of the day.  Over
    any sequence of other events, from any state of the page (taking
    and analysing photos, the header Reset, changing tab, typing a
    goal, the dark toggle, midnight, every event of the workout and
    journey tabs and of the exercise dialog, and every answer that
    comes back), [consumedCalories] keeps its value and the stored
    record of the ledger is the same. *)
Theorem ledger_moves_only_by_log_and_reset
  (p : Page) (es : list page_event) :
  Forall (fun e => page_changes_total e = false) es ->
  consumedCalories (ui (core (page_run p es))) = consumedCalories (ui (core p))
  /\ localStorage (env (core (page_run p es))) !! "calorieLog"
     = localStorage (env (core p)) !! "calorieLog".
Proof.
  revert p. induction es as [|e es IH]; intros p H; [split; reflexivity|].
  inversion H as [|? ? He Hes]; subst. rewrite page_run_cons.
  destruct (IH (page_step p e) Hes) as (A & B). rewrite A, B.
  rewrite core_page_step. apply total_step.
  destruct e; try reflexivity. exact He.
Qed.

Lemma ledger_moves_only_by_log_and_reset_witness :
  consumedCalories
    (ui (core (page_run planning
                 [PlanFailed; Core (ClickTab calorie); Core (DayChange day2);
                  Core ToggleDark])))
  = consumedCalories (ui (core planning))
  /\ localStorage
       (env (core (page_run planning
                     [PlanFailed; Core (ClickTab calorie);
                      Core (DayChange day2); Core ToggleDark])))
     !! "calorieLog"
     = localStorage (env (core planning)) !! "calorieLog".
Proof.
  apply (ledger_moves_only_by_log_and_reset planning).
  repeat first [apply List.Forall_nil
               | apply List.Forall_cons; [reflexivity|]].
Defined.
